(** * Scoring models of the NCAA / NBA ranking scripts

    A shallow embedding of the weighted multi-factor scoring scripts
    ([scripts/final_model_v3.py], [scripts/final_predictive_model.py],
    [scripts/predictive_model.py], [scripts/weighted_model_v2.py],
    [swish_score_calculator_v2.py], [swish_score_calculator.py]) and the
    properties of their load / score / rank pipeline.

    Modelling conventions
    - A pandas [DataFrame] is its ordered list of column names together with
      its rows in positional order; a row is a finite map from column name
      to [cell].
    - Python floats are read as exact rationals ([Q]); [CNaN] is the missing
      value.  Where the code tests [pd.isna] the missing value is handled as
      the code does; where a missing value or a string would enter
      arithmetic the model stops with [None], as it does for a Python
      exception ([KeyError], [IndexError], [TypeError], [ZeroDivisionError],
      [FileNotFoundError]).
    - Methods take the object ([self]) as an explicit record and return the
      updated record where they assign attributes. *)

From Stdlib Require Import QArith Qminmax Qabs Lqa ZArith Ascii String.
From Stdlib Require Import Permutation Sorted.
From stdpp Require Import gmap strings list.

(** ** Cells, rows and tables *)

Inductive cell :=
  | CNum (q : Q)
  | CStr (s : string)
  | CNaN.

Abbreviation row := (gmap string cell).

Record DataFrame := mkDataFrame {
  df_columns : list string;
  df_rows : list row
}.

Definition Qltb (x y : Q) : bool := negb (Qle_bool y x).

(** [==] on two scalars the way pandas compares a column with a scalar:
    a missing value equals nothing. *)
Definition cell_eqb (a b : cell) : bool :=
  match a, b with
  | CNum x, CNum y => Qeq_bool x y
  | CStr s, CStr t => bool_decide (s = t)
  | _, _ => false
  end.

Definition as_num (v : cell) : option Q :=
  match v with CNum q => Some q | _ => None end.

Definition as_str (v : cell) : option string :=
  match v with CStr s => Some s | _ => None end.

(** [pd.isna(v)], where [None] (an absent value) counts as missing. *)
Definition isna (v : option cell) : bool :=
  match v with
  | None | Some CNaN => true
  | Some _ => false
  end.

(** [row[c]] as a number. *)
Definition num (r : row) (c : string) : option Q := r !! c ≫= as_num.

(** [row.get(c, d)]. *)
Definition get (r : row) (c : string) (d : cell) : cell := default d (r !! c).

(** [df[c]] as a numeric column. *)
Definition column (df : DataFrame) (c : string) : option (list Q) :=
  if bool_decide (c ∈ df_columns df) then mapM (λ r, num r c) (df_rows df)
  else None.

(** [mask.sum()] of a boolean column. *)
Definition mask_sum (mask : list bool) : nat :=
  length (List.filter (λ b : bool, b) mask).

Definition Qnat (n : nat) : Q := inject_Z (Z.of_nat n).

(** [df[c] = vals], positional. *)
Definition setitem (df : DataFrame) (c : string) (vals : list cell)
  : option DataFrame :=
  if decide (length vals = length (df_rows df)) then
    Some {| df_columns := if bool_decide (c ∈ df_columns df)
                          then df_columns df else df_columns df ++ [c];
            df_rows := zip_with (λ r v, <[c := v]> r) (df_rows df) vals |}
  else None.

(** [range(1, n + 1)] as a column. *)
Definition range1 (n : nat) : list cell :=
  (λ i, CNum (Qnat i)) <$> seq 1 n.

(** ** Sorting by a column, descending

    [df.sort_values(c, ascending=False)]: rows with equal keys keep their
    relative order, which is what the sort underneath does on short
    columns; on long ones pandas leaves the order of ties to the
    algorithm. *)

Fixpoint insert_desc {A} (x : Q * A) (l : list (Q * A)) : list (Q * A) :=
  match l with
  | [] => [x]
  | y :: l' =>
      if Qle_bool (fst y) (fst x) then x :: l else y :: insert_desc x l'
  end.

Definition sort_desc {A} (l : list (Q * A)) : list (Q * A) :=
  foldr insert_desc [] l.

Definition sort_values_desc (df : DataFrame) (c : string)
  : option DataFrame :=
  keys ← column df c;
  Some {| df_columns := df_columns df;
          df_rows := (sort_desc (zip keys (df_rows df))).*2 |}.

(** ** Dictionaries kept in insertion order *)

Definition dict (V : Type) := list (string * V).

Fixpoint dict_get {V} (d : dict V) (k : string) : option V :=
  match d with
  | [] => None
  | (k', v) :: d' => if bool_decide (k' = k) then Some v else dict_get d' k
  end.

Definition dict_values {V} (d : dict V) : list V := d.*2.

(** Python's [sum]: a left fold from 0. *)
Definition Qsum (l : list Q) : Q := foldl Qplus 0%Q l.

(** [pd.DataFrame(results)] for a list of records that all carry the keys
    of the first one. *)
Definition DataFrame_of_records (recs : list (dict cell)) : DataFrame :=
  {| df_columns := match recs with [] => [] | r :: _ => r.*1 end;
     df_rows := (λ r, list_to_map (reverse r)) <$> recs |}.

(** A percentile: [count / n * 100]. *)
Definition percentile (count n : nat) : Q := (Qnat count / Qnat n * 100)%Q.

(** ** Strings of column names *)

Definition endswith (s suf : string) : bool :=
  let n := String.length s in
  let m := String.length suf in
  bool_decide (m ≤ n) && String.eqb (String.substring (n - m) m s) suf.

(** [s.split('_')[0]] *)
Fixpoint split_underscore_head (s : string) : string :=
  match s with
  | EmptyString => EmptyString
  | String a s' =>
      if Ascii.eqb a "_"%char then EmptyString
      else String a (split_underscore_head s')
  end.

(** ** Files and joins *)

(** The CSV files of the working directory, already parsed. *)
Abbreviation files := (gmap string DataFrame).

(** [pd.read_csv(path)]: a missing file raises. *)
Definition read_csv (fs : files) (path : string) : option DataFrame :=
  fs !! path.

(** Join keys match when they are the same value; pandas also matches two
    missing keys with each other. *)
Definition key_eqb (a b : option cell) : bool :=
  match a, b with
  | Some CNaN, Some CNaN => true
  | Some x, Some y => cell_eqb x y
  | _, _ => false
  end.

(** [pd.merge(left, right, on=on, how='inner', suffixes=('', sfx))]:
    one output row per pair of a left and a right row with matching keys,
    in the order of the left rows; a right column whose name the left
    table already has gets the suffix, and a clash of the resulting names
    is refused. *)
Definition merge_inner (left right : DataFrame) (on sfx : string)
  : option DataFrame :=
  if bool_decide (on ∈ df_columns left) && bool_decide (on ∈ df_columns right)
  then
    let rename c :=
      if bool_decide (c ∈ df_columns left) then c +:+ sfx else c in
    let rcols :=
      List.filter (λ c, negb (bool_decide (c = on))) (df_columns right) in
    let cols := df_columns left ++ (rename <$> rcols) in
    let combine (l r : row) : row :=
      foldr (λ c acc, match r !! c with
                      | Some v => <[rename c := v]> acc
                      | None => acc
                      end) l rcols in
    if bool_decide (NoDup cols) then
      Some {| df_columns := cols;
              df_rows :=
                l ← df_rows left;
                r ← df_rows right;
                if key_eqb (l !! on) (r !! on) then [combine l r] else [] |}
    else None
  else None.

(** [df.drop(columns=cols)] *)
Definition drop_columns (df : DataFrame) (cols : list string) : DataFrame :=
  {| df_columns :=
       List.filter (λ c, negb (bool_decide (c ∈ cols))) (df_columns df);
     df_rows := (λ r : row, foldr delete r cols) <$> df_rows df |}.

(** [df[cols]]: the listed columns, in the listed order; a column that
    the table does not have raises. *)
Definition select_columns (df : DataFrame) (cols : list string)
  : option DataFrame :=
  if forallb (λ c, bool_decide (c ∈ df_columns df)) cols then
    Some {| df_columns := cols;
            df_rows := (λ r : row,
                          filter (λ kv : string * cell, kv.1 ∈ cols) r)
                       <$> df_rows df |}
  else None.

(** [df[c] = df[a] - df[b]] *)
Definition set_difference_column (df : DataFrame) (c a b : string)
  : option DataFrame :=
  xs ← column df a;
  ys ← column df b;
  setitem df c (zip_with (λ x y, CNum (x - y)%Q) xs ys).

(** The first row of [df[df[c] == v]], that is [.iloc[0]]. *)
Definition first_where (df : DataFrame) (c : string) (v : cell)
  : option row :=
  head (List.filter
          (λ r : row, match r !! c with
                      | Some x => cell_eqb x v
                      | None => false
                      end) (df_rows df)).

(** [sum(scores[f] * weights[f] for f in scores)] *)
Definition weighted_total (weights scores : dict Q) : option Q :=
  Qsum <$> mapM (λ '(f, s), w ← dict_get weights f; Some (s * w)%Q) scores.

(** [result[f'{factor}_score'] = score] for every factor. *)
Definition component_columns (scores : dict Q) : dict cell :=
  (λ '(f, s), (f +:+ "_score", CNum s)) <$> scores.

(** * scripts/final_model_v3.py *)

Module FinalPredictiveModelV3.

Record t := mk {
  weights : dict Q;
  rankings : option DataFrame;
  personnel : option DataFrame;
  four_factors : option DataFrame;
  data : option DataFrame;
  results_df : option DataFrame
}.

Definition __init__ : t :=
  {| weights := [("defensive_rating", 0.30); ("offensive_rating", 0.30);
                 ("recent_performance", 0.20); ("experience", 0.15);
                 ("turnover_margin", 0.05)]%Q;
     rankings := None; personnel := None; four_factors := None;
     data := None; results_df := None |}.

Definition load_all_data (self : t) (fs : files) (data_dir : string)
  : option t :=
  rk ← read_csv fs (data_dir +:+ "/kenpom_rankings_latest.csv");
  pe ← read_csv fs (data_dir +:+ "/kenpom_height_experience_latest.csv");
  ff ← read_csv fs (data_dir +:+ "/kenpom_four_factors_latest.csv");
  d1 ← merge_inner rk pe "Team" "_pers";
  d2 ← merge_inner d1 ff "Team" "_ff";
  let cols_to_drop :=
    List.filter (λ col, endswith col "_pers" || endswith col "_ff")
                (df_columns d2) in
  let cols_to_drop :=
    List.filter (λ col, bool_decide (split_underscore_head col
                                       ∈ df_columns d2)) cols_to_drop in
  let d3 := drop_columns d2 cols_to_drop in
  d4 ← set_difference_column d3 "Turnover_Margin" "Def-TO%" "Off-TO%";
  Some {| weights := weights self;
          rankings := Some rk; personnel := Some pe;
          four_factors := Some ff;
          data := Some d4; results_df := results_df self |}.

(** [def_percentile] before the bonus: [(all_def > de).sum() / len * 100]. *)
Definition def_percentile (all_def : list Q) (de : Q) : Q :=
  percentile (mask_sum ((λ x, Qltb de x) <$> all_def)) (length all_def).

(** The bonus of [calculate_defensive_rating], keyed on the rank. *)
Definition defensive_bonus (rk def_percentile : Q) : Q :=
  (if Qle_bool rk 10 then Qmin 100 (def_percentile + 5)
   else if Qle_bool rk 25 then Qmin 100 (def_percentile + 2)
   else def_percentile)%Q.

(** [off_percentile] before the bonus: [(oe > all_off).sum() / len * 100]. *)
Definition off_percentile (all_off : list Q) (oe : Q) : Q :=
  percentile (mask_sum ((λ x, Qltb x oe) <$> all_off)) (length all_off).

(** The bonus of [calculate_offensive_rating], keyed on the rank. *)
Definition offensive_bonus (rk off_percentile : Q) : Q :=
  (if Qle_bool rk 10 then Qmin 100 (off_percentile + 4)
   else if Qle_bool rk 25 then Qmin 100 (off_percentile + 2)
   else off_percentile)%Q.


Definition calculate_defensive_rating (self : t) (team_row : row)
  : option Q :=
  d ← data self;
  all_def ← column d "AdjDE";
  de ← num team_row "AdjDE";
  rk ← num team_row "AdjDE.Rank";
  Some (defensive_bonus rk (def_percentile all_def de)).

Definition calculate_offensive_rating (self : t) (team_row : row)
  : option Q :=
  d ← data self;
  all_off ← column d "AdjOE";
  oe ← num team_row "AdjOE";
  rk ← num team_row "AdjOE.Rank";
  Some (offensive_bonus rk (off_percentile all_off oe)).

Definition calculate_recent_performance (self : t) (team_name : cell)
  : option Q :=
  d ← data self;
  team_row ← first_where d "Team" team_name;
  rank ← num team_row "AdjEM_Rank";
  Some (if Qle_bool rank 5 then 98
        else if Qle_bool rank 10 then 93
        else if Qle_bool rank 25 then 85
        else if Qle_bool rank 50 then 75
        else if Qle_bool rank 75 then 65
        else if Qle_bool rank 100 then 55
        else 40)%Q.

Definition calculate_experience (self : t) (team_row : row) : option Q :=
  exp_value ← num team_row "Experience";
  team_rank ← num team_row "AdjEM_Rank";
  Some (if Qle_bool team_rank 10 then
          if Qle_bool 2.5 exp_value then 100
          else if Qle_bool 2.0 exp_value then 90
          else 80
        else if Qle_bool team_rank 25 then
          if Qle_bool 2.5 exp_value then 95
          else if Qle_bool 2.0 exp_value then 80
          else 70
        else if Qle_bool team_rank 50 then
          if Qle_bool 2.5 exp_value then 90
          else if Qle_bool 2.0 exp_value then 70
          else if Qle_bool 1.5 exp_value then 55
          else 40
        else
          if Qle_bool 3.0 exp_value then 85
          else if Qle_bool 2.5 exp_value then 70
          else if Qle_bool 2.0 exp_value then 50
          else 20)%Q.

(** [margin_percentile] before the bonus and the penalty. *)
Definition margin_percentile (all_margins : list Q) (margin : Q) : Q :=
  percentile (mask_sum ((λ x, Qltb x margin) <$> all_margins))
             (length all_margins).

(** The bonus, then the penalty, of [calculate_turnover_margin]. *)
Definition turnover_margin_score (margin margin_percentile : Q) : Q :=
  let margin_percentile :=
    (if Qltb 5.0 margin then Qmin 100 (margin_percentile + 10)
     else if Qltb 3.0 margin then Qmin 100 (margin_percentile + 5)
     else margin_percentile)%Q in
  (if Qltb margin (-3.0) then Qmax 0 (margin_percentile - 10)
   else margin_percentile)%Q.

Definition calculate_turnover_margin (self : t) (team_row : row)
  : option Q :=
  margin ← num team_row "Turnover_Margin";
  d ← data self;
  all_margins ← column d "Turnover_Margin";
  Some (turnover_margin_score margin (margin_percentile all_margins margin)).

Definition calculate_total_score (self : t) (team_row : row)
  : option (Q * dict Q) :=
  team_name ← team_row !! "Team";
  s_def ← calculate_defensive_rating self team_row;
  s_off ← calculate_offensive_rating self team_row;
  s_rec ← calculate_recent_performance self team_name;
  s_exp ← calculate_experience self team_row;
  s_tom ← calculate_turnover_margin self team_row;
  let scores := [("defensive_rating", s_def); ("offensive_rating", s_off);
                 ("recent_performance", s_rec); ("experience", s_exp);
                 ("turnover_margin", s_tom)] in
  total ← weighted_total (weights self) scores;
  Some (total, scores).

(** The record built for one row inside the loop of [generate_rankings]. *)
Definition result_record (self : t) (r : row) : option (dict cell) :=
  '(total_score, component_scores) ← calculate_total_score self r;
  team ← r !! "Team";
  conf ← r !! "Conference";
  experience ← r !! "Experience";
  off_to ← r !! "Off-TO%";
  def_to ← r !! "Def-TO%";
  margin ← r !! "Turnover_Margin";
  kenpom ← r !! "AdjEM_Rank";
  adjem ← r !! "AdjEM";
  adjoe ← r !! "AdjOE";
  adjde ← r !! "AdjDE";
  oe_rank ← r !! "AdjOE.Rank";
  de_rank ← r !! "AdjDE.Rank";
  Some ([("Team", team); ("Conference", conf);
         ("Final_Score", CNum total_score); ("Experience", experience);
         ("Off_TO_Pct", off_to); ("Def_TO_Pct", def_to);
         ("Turnover_Margin", margin); ("KenPom_Rank", kenpom);
         ("AdjEM", adjem); ("AdjOE", adjoe); ("AdjDE", adjde);
         ("AdjOE_Rank", oe_rank); ("AdjDE_Rank", de_rank)]
          ++ component_columns component_scores).

(** Sort, number and compare with the reference rank: the last four
    statements of [generate_rankings]. *)
Definition rank_results (results : list (dict cell)) : option DataFrame :=
  let df := DataFrame_of_records results in
  df ← sort_values_desc df "Final_Score";
  df ← setitem df "Final_Rank" (range1 (length (df_rows df)));
  set_difference_column df "Rank_Change" "KenPom_Rank" "Final_Rank".

Definition generate_rankings (self : t) : option (t * DataFrame) :=
  d ← data self;
  results ← mapM (result_record self) (df_rows d);
  df ← rank_results results;
  Some ({| weights := weights self; rankings := rankings self;
           personnel := personnel self; four_factors := four_factors self;
           data := data self; results_df := Some df |}, df).

End FinalPredictiveModelV3.

(** * scripts/final_predictive_model.py *)

(** [sub in s] on strings. *)
Fixpoint contains (sub s : string) : bool :=
  String.prefix sub s ||
  match s with
  | EmptyString => false
  | String _ s' => contains sub s'
  end.

Module FinalPredictiveModel.

Record t := mk {
  weights : dict Q;
  rankings : option DataFrame;
  personnel : option DataFrame;
  tempo : option DataFrame;
  player_stats : option DataFrame;
  data : option DataFrame;
  results_df : option DataFrame
}.

Definition __init__ : t :=
  {| weights := [("defensive_rating", 0.30); ("offensive_rating", 0.25);
                 ("recent_performance", 0.20); ("experience", 0.15);
                 ("star_power", 0.05); ("pace_control", 0.05)]%Q;
     rankings := None; personnel := None; tempo := None;
     player_stats := None; data := None; results_df := None |}.

Definition load_all_data (self : t) (fs : files) (data_dir : string)
  : option t :=
  rk ← read_csv fs (data_dir +:+ "/kenpom_rankings_latest.csv");
  pe ← read_csv fs (data_dir +:+ "/kenpom_height_experience_latest.csv");
  te ← read_csv fs (data_dir +:+ "/kenpom_tempo_stats_latest.csv");
  ps ← read_csv fs (data_dir +:+ "/kenpom_player_stats_latest.csv");
  d1 ← merge_inner rk pe "Team" "_pers";
  d2 ← merge_inner d1 te "Team" "_tempo";
  let conf_cols :=
    List.filter (λ col, contains "Conference" col
                        && negb (bool_decide (col = "Conference")))
                (df_columns d2) in
  Some {| weights := weights self;
          rankings := Some rk; personnel := Some pe; tempo := Some te;
          player_stats := Some ps;
          data := Some (drop_columns d2 conf_cols);
          results_df := results_df self |}.

(** [def_percentile] before the bonus: [(all_def > de).sum() / len * 100]. *)
Definition def_percentile (all_def : list Q) (de : Q) : Q :=
  percentile (mask_sum ((λ x, Qltb de x) <$> all_def)) (length all_def).

(** The bonus of [calculate_defensive_rating], keyed on the rank. *)
Definition defensive_bonus (rk def_percentile : Q) : Q :=
  (if Qle_bool rk 10 then Qmin 100 (def_percentile + 5)
   else if Qle_bool rk 25 then Qmin 100 (def_percentile + 2)
   else def_percentile)%Q.

(** [off_percentile] before the bonus: [(oe > all_off).sum() / len * 100]. *)
Definition off_percentile (all_off : list Q) (oe : Q) : Q :=
  percentile (mask_sum ((λ x, Qltb x oe) <$> all_off)) (length all_off).

(** The bonus of [calculate_offensive_rating], keyed on the rank. *)
Definition offensive_bonus (rk off_percentile : Q) : Q :=
  (if Qle_bool rk 10 then Qmin 100 (off_percentile + 4)
   else if Qle_bool rk 25 then Qmin 100 (off_percentile + 2)
   else off_percentile)%Q.


Definition calculate_defensive_rating (self : t) (team_row : row)
  : option Q :=
  d ← data self;
  all_def ← column d "AdjDE";
  de ← num team_row "AdjDE";
  rk ← num team_row "AdjDE.Rank";
  Some (defensive_bonus rk (def_percentile all_def de)).

Definition calculate_offensive_rating (self : t) (team_row : row)
  : option Q :=
  d ← data self;
  all_off ← column d "AdjOE";
  oe ← num team_row "AdjOE";
  rk ← num team_row "AdjOE.Rank";
  Some (offensive_bonus rk (off_percentile all_off oe)).

Definition calculate_recent_performance (self : t) (team_name : cell)
  : option Q :=
  d ← data self;
  team_row ← first_where d "Team" team_name;
  rank ← num team_row "AdjEM_Rank";
  Some (if Qle_bool rank 5 then 98
        else if Qle_bool rank 10 then 93
        else if Qle_bool rank 25 then 85
        else if Qle_bool rank 50 then 75
        else if Qle_bool rank 75 then 65
        else if Qle_bool rank 100 then 55
        else if Qle_bool rank 150 then 45
        else 35)%Q.

(** [exp_percentile] before the bonus and the penalty. *)
Definition exp_percentile (all_exp : list Q) (exp_value : Q) : Q :=
  percentile (mask_sum ((λ x, Qltb x exp_value) <$> all_exp))
             (length all_exp).

(** The bonus, then the penalty, of [calculate_experience]. *)
Definition experience_score (exp_value exp_percentile : Q) : Q :=
  let exp_percentile :=
    (if Qle_bool 3.0 exp_value then Qmin 100 (exp_percentile + 10)
     else if Qle_bool 2.5 exp_value then Qmin 100 (exp_percentile + 5)
     else exp_percentile)%Q in
  (if Qltb exp_value 1.5 then Qmax 0 (exp_percentile - 10)
   else if Qltb exp_value 2.0 then Qmax 0 (exp_percentile - 5)
   else exp_percentile)%Q.

Definition calculate_experience (self : t) (team_row : row) : option Q :=
  exp_value ← num team_row "Experience";
  d ← data self;
  all_exp ← column d "Experience";
  Some (experience_score exp_value (exp_percentile all_exp exp_value)).

(** [(self.player_stats['Team'] == team_name).sum()] *)
Definition star_count (self : t) (team_name : cell) : option nat :=
  ps ← player_stats self;
  if bool_decide ("Team" ∈ df_columns ps) then
    teams ← mapM (λ r : row, r !! "Team") (df_rows ps);
    Some (mask_sum ((λ x, cell_eqb x team_name) <$> teams))
  else None.

Definition calculate_star_power (self : t) (team_name : cell)
  : option Q :=
  n ← star_count self team_name;
  if bool_decide (3 ≤ n) then Some 100%Q
  else if bool_decide (n = 2) then Some 85%Q
  else if bool_decide (n = 1) then Some 70%Q
  else
    d ← data self;
    team_row ← first_where d "Team" team_name;
    rank ← num team_row "AdjEM_Rank";
    Some (if Qle_bool rank 50 then 50 else 30)%Q.

(** The tempo rank under whichever of the two names the row carries. *)
Definition tempo_rank_of (r : row) : option cell :=
  match r !! "Tempo-Adj.Rank_tempo" with
  | Some v => Some v
  | None => r !! "Tempo-Adj.Rank"
  end.

Definition calculate_pace_control (self : t) (team_row : row)
  : option Q :=
  match tempo_rank_of team_row with
  | None => Some 50%Q
  | Some v =>
      tempo_rank ← as_num v;
      let pace_score :=
        (if Qle_bool tempo_rank 30 || Qle_bool 335 tempo_rank then 90
         else if Qle_bool tempo_rank 60 || Qle_bool 305 tempo_rank then 75
         else if Qle_bool tempo_rank 100 || Qle_bool 265 tempo_rank then 60
         else 45)%Q in
      rank ← num team_row "AdjEM_Rank";
      Some (if Qle_bool rank 25 then Qmin 100 (pace_score + 10)
            else pace_score)%Q
  end.

Definition calculate_total_score (self : t) (team_row : row)
  : option (Q * dict Q) :=
  team_name ← team_row !! "Team";
  s_def ← calculate_defensive_rating self team_row;
  s_off ← calculate_offensive_rating self team_row;
  s_rec ← calculate_recent_performance self team_name;
  s_exp ← calculate_experience self team_row;
  s_star ← calculate_star_power self team_name;
  s_pace ← calculate_pace_control self team_row;
  let scores := [("defensive_rating", s_def); ("offensive_rating", s_off);
                 ("recent_performance", s_rec); ("experience", s_exp);
                 ("star_power", s_star); ("pace_control", s_pace)] in
  total ← weighted_total (weights self) scores;
  Some (total, scores).

Definition result_record (self : t) (r : row) : option (dict cell) :=
  '(total_score, component_scores) ← calculate_total_score self r;
  team ← r !! "Team";
  stars ← star_count self team;
  let tempo_rank := default (CNum 0) (tempo_rank_of r) in
  conf ← r !! "Conference";
  experience ← r !! "Experience";
  kenpom ← r !! "AdjEM_Rank";
  adjem ← r !! "AdjEM";
  adjoe ← r !! "AdjOE";
  adjde ← r !! "AdjDE";
  oe_rank ← r !! "AdjOE.Rank";
  de_rank ← r !! "AdjDE.Rank";
  Some ([("Team", team); ("Conference", conf);
         ("Final_Score", CNum total_score); ("Experience", experience);
         ("Star_Count", CNum (Qnat stars)); ("Tempo_Rank", tempo_rank);
         ("KenPom_Rank", kenpom);
         ("AdjEM", adjem); ("AdjOE", adjoe); ("AdjDE", adjde);
         ("AdjOE_Rank", oe_rank); ("AdjDE_Rank", de_rank)]
          ++ component_columns component_scores).

Definition rank_results (results : list (dict cell)) : option DataFrame :=
  let df := DataFrame_of_records results in
  df ← sort_values_desc df "Final_Score";
  df ← setitem df "Final_Rank" (range1 (length (df_rows df)));
  set_difference_column df "Rank_Change" "KenPom_Rank" "Final_Rank".

Definition generate_rankings (self : t) : option (t * DataFrame) :=
  d ← data self;
  results ← mapM (result_record self) (df_rows d);
  df ← rank_results results;
  Some ({| weights := weights self; rankings := rankings self;
           personnel := personnel self; tempo := tempo self;
           player_stats := player_stats self;
           data := data self; results_df := Some df |}, df).

End FinalPredictiveModel.

(** [col.max()] and [col.min()]; an empty column has neither. *)
Definition col_max (l : list Q) : option Q :=
  match l with [] => None | x :: l' => Some (foldl Qmax x l') end.

Definition col_min (l : list Q) : option Q :=
  match l with [] => None | x :: l' => Some (foldl Qmin x l') end.

(** * Weights given by the caller: scripts/predictive_model.py,
      scripts/weighted_model_v2.py, scripts/hybrid_model.py *)

(** The shared normalisation block:
    [total = sum(weights.values())] and, when [abs(total - 1.0) > 0.001],
    every weight divided by [total]; dividing by a zero total raises. *)
Definition normalize_weights (weights : dict Q) : option (dict Q) :=
  let total := Qsum (dict_values weights) in
  if Qltb 0.001 (Qabs (total - 1.0)) then
    if Qeq_bool total 0 then
      match weights with [] => Some weights | _ => None end
    else Some ((λ '(k, w), (k, w / total)%Q) <$> weights)
  else Some weights.

Module PredictivePowerRankingModel.

Record t := mk {
  weights : dict Q;
  rankings : option DataFrame;
  four_factors : option DataFrame;
  tempo_stats : option DataFrame;
  (** [games] and [upsets]: unset before [load_data], then the table or
      Python's [None]. *)
  games : option (option DataFrame);
  upsets : option (option DataFrame)
}.

Definition default_weights : dict Q :=
  [("adjusted_efficiency", 0.45); ("recent_performance", 0.20);
   ("consistency", 0.10); ("pace_flexibility", 0.10);
   ("experience", 0.05); ("altitude_travel", 0.05);
   ("injury_adjustment", 0.05)]%Q.

Definition __init__ (weights : option (dict Q)) : option t :=
  w ← normalize_weights (default default_weights weights);
  Some {| weights := w; rankings := None; four_factors := None;
          tempo_stats := None; games := None; upsets := None |}.

Definition load_data (self : t) (fs : files) (data_dir : string)
  : option t :=
  rk ← read_csv fs (data_dir +:+ "/kenpom_rankings_latest.csv");
  ff ← read_csv fs (data_dir +:+ "/kenpom_four_factors_latest.csv");
  ts ← read_csv fs (data_dir +:+ "/kenpom_tempo_stats_latest.csv");
  let '(g, u) :=
    match read_csv fs (data_dir +:+ "/kenpom_exciting_games_latest.csv"),
          read_csv fs (data_dir +:+ "/kenpom_upset_games_latest.csv") with
    | Some g, Some u => (Some g, Some u)
    | _, _ => (None, None)
    end in
  Some {| weights := weights self;
          rankings := Some rk; four_factors := Some ff;
          tempo_stats := Some ts;
          games := Some g; upsets := Some u |}.

(** The margin is rescaled by the least and the greatest margin of the
    table; with an empty table, or when all margins are equal, the
    quotient is not a number. *)
Definition calculate_adjusted_efficiency (self : t) (team_row : row)
  : option Q :=
  oe ← num team_row "AdjOE";
  de ← num team_row "AdjDE";
  let base_em := (oe - de)%Q in
  rk ← rankings self;
  all_oe ← column rk "AdjOE";
  all_de ← column rk "AdjDE";
  let all_ems := zip_with Qminus all_oe all_de in
  min_em ← col_min all_ems;
  max_em ← col_max all_ems;
  if Qeq_bool (max_em - min_em) 0 then None
  else
    let em_normalized :=
      (100 * (base_em - min_em) / (max_em - min_em))%Q in
    off_rank ← num team_row "AdjOE.Rank";
    def_rank ← num team_row "AdjDE.Rank";
    let n := Qnat (length (df_rows rk)) in
    if Qeq_bool n 0 then None
    else
      let offense_percentile := (100 * (1 - off_rank / n))%Q in
      let defense_percentile := (100 * (1 - def_rank / n))%Q in
      let em_normalized :=
        (if Qltb 95 offense_percentile || Qltb 95 defense_percentile
         then em_normalized + 2 else em_normalized)%Q in
      Some (Qmin 100 em_normalized).

(** [.iloc[0]] of an empty selection raises.  The rank is only compared:
    every comparison with a missing value is false, and comparing a
    string with a number raises. *)
Definition calculate_recent_performance (self : t) (team_name : cell)
  : option Q :=
  rk ← rankings self;
  team_row ← first_where rk "Team" team_name;
  current_rank ← team_row !! "AdjEM_Rank";
  match current_rank with
  | CNum r =>
      Some (if Qle_bool r 10 then 90
            else if Qle_bool r 25 then 80
            else if Qle_bool r 50 then 70
            else if Qle_bool r 100 then 60
            else 50)%Q
  | CNaN => Some 50%Q
  | CStr _ => None
  end.

Definition calculate_consistency (self : t) (team_name : cell)
  : option Q :=
  ff ← four_factors self;
  if bool_decide ("Team" ∈ df_columns ff) then
    match first_where ff "Team" team_name with
    | None => Some 50%Q
    | Some team_ff =>
        off_rank ← num team_ff "AdjOE.Rank";
        def_rank ← num team_ff "AdjDE.Rank";
        let rank_diff := Qabs (off_rank - def_rank) in
        Some (if Qltb rank_diff 20 then 85
              else if Qltb rank_diff 50 then 70
              else if Qltb rank_diff 100 then 55
              else 40)%Q
    end
  else None.

Definition calculate_pace_flexibility (self : t) (team_name : cell)
  : option Q :=
  ts ← tempo_stats self;
  if bool_decide ("Team" ∈ df_columns ts) then
    match first_where ts "Team" team_name with
    | None => Some 50%Q
    | Some team_tempo =>
        tempo_rank ← team_tempo !! "Tempo-Adj.Rank";
        flexibility ←
          match tempo_rank with
          | CNum x =>
              Some (if Qle_bool 100 x && Qle_bool x 200 then 80
                    else if Qle_bool 50 x && Qle_bool x 250 then 65
                    else 50)%Q
          | CNaN => Some 50%Q
          | CStr _ => None
          end;
        rk ← rankings self;
        team_row ← first_where rk "Team" team_name;
        rank ← team_row !! "AdjEM_Rank";
        match rank with
        | CNum r =>
            Some (if Qle_bool r 25 then Qmin 100 (flexibility + 15)
                  else flexibility)%Q
        | CNaN => Some flexibility
        | CStr _ => None
        end
    end
  else None.

Definition calculate_experience (self : t) (team_name : cell)
  : option Q :=
  rk ← rankings self;
  team_row ← first_where rk "Team" team_name;
  conf ← team_row !! "Conference";
  let base_experience :=
    (if match conf with
        | CStr s => bool_decide (s ∈ ["SEC"; "B12"; "B10"; "ACC"; "BE"])
        | _ => false
        end then 70 else 50)%Q in
  rank ← team_row !! "AdjEM_Rank";
  match rank with
  | CNum r =>
      Some (Qmin 100 (if Qle_bool r 50 then base_experience + 10
                      else base_experience))%Q
  | CNaN => Some (Qmin 100 base_experience)
  | CStr _ => None
  end.

Definition calculate_altitude_travel (self : t) (team_name : cell) : Q :=
  let is_in (l : list string) :=
    match team_name with CStr s => bool_decide (s ∈ l) | _ => false end in
  (if is_in ["Air Force"; "Colorado"; "Colorado St."; "Denver";
             "New Mexico"; "Utah St."; "Wyoming"; "Nevada"] then 85
   else if is_in ["Duke"; "Kansas"; "Gonzaga"; "Michigan St."; "Purdue";
                  "Arizona"; "Kentucky"; "North Carolina"] then 75
   else 60)%Q.

Definition calculate_injury_adjustment (self : t) (team_name : cell) : Q :=
  75%Q.

Definition calculate_predictive_score (self : t) (team_row : row)
  : option (Q * dict Q) :=
  team_name ← team_row !! "Team";
  s_eff ← calculate_adjusted_efficiency self team_row;
  s_rec ← calculate_recent_performance self team_name;
  s_con ← calculate_consistency self team_name;
  s_pace ← calculate_pace_flexibility self team_name;
  s_exp ← calculate_experience self team_name;
  let scores := [("adjusted_efficiency", s_eff);
                 ("recent_performance", s_rec); ("consistency", s_con);
                 ("pace_flexibility", s_pace); ("experience", s_exp);
                 ("altitude_travel",
                  calculate_altitude_travel self team_name);
                 ("injury_adjustment",
                  calculate_injury_adjustment self team_name)] in
  total_score ← weighted_total (weights self) scores;
  Some (total_score, scores).

Definition result_record (self : t) (r : row) : option (dict cell) :=
  '(total_score, component_scores) ← calculate_predictive_score self r;
  team ← r !! "Team";
  conf ← r !! "Conference";
  kenpom ← r !! "AdjEM_Rank";
  adjem ← r !! "AdjEM";
  adjoe ← r !! "AdjOE";
  adjde ← r !! "AdjDE";
  Some ([("Team", team); ("Conference", conf);
         ("Predictive_Score", CNum total_score); ("KenPom_Rank", kenpom);
         ("AdjEM", adjem); ("AdjOE", adjoe); ("AdjDE", adjde)]
          ++ component_columns component_scores).

Definition rank_results (results : list (dict cell)) : option DataFrame :=
  let df := DataFrame_of_records results in
  df ← sort_values_desc df "Predictive_Score";
  df ← setitem df "Predictive_Rank" (range1 (length (df_rows df)));
  set_difference_column df "Rank_Diff" "KenPom_Rank" "Predictive_Rank".

(** The object once [generate_rankings] has run: it then carries
    [results_df] as well. *)
Record ranked := mk_ranked { model : t; results_df : DataFrame }.

Definition generate_rankings (self : t) : option (ranked * DataFrame) :=
  rk ← rankings self;
  results ← mapM (result_record self) (df_rows rk);
  df ← rank_results results;
  Some ({| model := self; results_df := df |}, df).

End PredictivePowerRankingModel.

Module HybridPowerRankingModel.

Record t := mk { base_weight : Q; results_weight : Q }.

Definition __init__ (base_weight results_weight : Q) : option t :=
  let total := (base_weight + results_weight)%Q in
  if Qltb 0.001 (Qabs (total - 1.0)) then
    if Qeq_bool total 0 then None
    else Some {| base_weight := base_weight / total;
                 results_weight := results_weight / total |}
  else Some {| base_weight := base_weight;
               results_weight := results_weight |}.

End HybridPowerRankingModel.

(** * The script's surroundings: files and the clock *)

Record World := mkWorld {
  w_files : files;
  (** what [datetime.now().strftime("%Y%m%d_%H%M%S")] returns *)
  w_now : string
}.

(** [df.to_csv(path, index=False)] *)
Definition to_csv (df : DataFrame) (path : string) (w : World) : World :=
  {| w_files := <[path := df]> (w_files w); w_now := w_now w |}.

(** * scripts/weighted_model_v2.py *)

Module WeightedPowerRankingModel.

Record t := mk {
  weights : dict Q;
  rankings : option DataFrame;
  four_factors : option DataFrame;
  team_stats : option DataFrame;
  games : option (option DataFrame);
  upsets : option (option DataFrame);
  results_df : option DataFrame
}.

Definition default_weights : dict Q :=
  [("offensive_efficiency", 0.35); ("defensive_efficiency", 0.35);
   ("momentum", 0.15); ("schedule_strength", 0.10);
   ("dominance", 0.05)]%Q.

Definition __init__ (weights : option (dict Q)) : option t :=
  w ← normalize_weights (default default_weights weights);
  Some {| weights := w; rankings := None; four_factors := None;
          team_stats := None; games := None; upsets := None;
          results_df := None |}.

Definition load_data (self : t) (fs : files) (data_dir : string)
  : option t :=
  rk ← read_csv fs (data_dir +:+ "/kenpom_rankings_latest.csv");
  ff ← read_csv fs (data_dir +:+ "/kenpom_four_factors_latest.csv");
  ts ← read_csv fs (data_dir +:+ "/kenpom_team_stats_latest.csv");
  let '(g, u) :=
    match read_csv fs (data_dir +:+ "/kenpom_exciting_games_latest.csv"),
          read_csv fs (data_dir +:+ "/kenpom_upset_games_latest.csv") with
    | Some g, Some u => (Some g, Some u)
    | _, _ => (None, None)
    end in
  Some {| weights := weights self;
          rankings := Some rk; four_factors := Some ff;
          team_stats := Some ts;
          games := Some g; upsets := Some u;
          results_df := results_df self |}.

(** [100 * (x - lo) / (hi - lo)]; with [hi = lo] the quotient is not a
    number. *)
Definition rescale (x lo hi : Q) : option Q :=
  if Qeq_bool hi lo then None else Some (100 * (x - lo) / (hi - lo))%Q.

Definition calculate_offensive_score (self : t) (r : row) : option Q :=
  rk ← rankings self;
  all_oe ← column rk "AdjOE";
  max_oe ← col_max all_oe;
  min_oe ← col_min all_oe;
  oe ← num r "AdjOE";
  rescale oe min_oe max_oe.

Definition calculate_defensive_score (self : t) (r : row) : option Q :=
  rk ← rankings self;
  all_de ← column rk "AdjDE";
  max_de ← col_max all_de;
  min_de ← col_min all_de;
  de ← num r "AdjDE";
  if Qeq_bool max_de min_de then None
  else Some (100 * (max_de - de) / (max_de - min_de))%Q.

Definition calculate_momentum_score (self : t) (team_name : cell)
  : option Q :=
  rk ← rankings self;
  if bool_decide ("Team" ∈ df_columns rk) then
    match List.filter
            (λ r : row, match r !! "Team" with
                        | Some x => cell_eqb x team_name
                        | None => false
                        end) (df_rows rk) with
    | [] => Some 50%Q
    | team_row :: _ =>
        rank ← num team_row "AdjEM_Rank";
        let total_teams := Qnat (length (df_rows rk)) in
        if Qeq_bool (total_teams - 1) 0 then None
        else
          let momentum_score :=
            (100 * (total_teams - rank) / (total_teams - 1))%Q in
          Some (momentum_score * 0.8 + 20)%Q
    end
  else None.

Definition calculate_schedule_strength_score (self : t) (r : row)
  : option Q :=
  conf ← r !! "Conference";
  let is_in (l : list string) :=
    match conf with CStr s => bool_decide (s ∈ l) | _ => false end in
  let base_score :=
    (if is_in ["SEC"; "B12"; "B10"; "ACC"; "BE"] then 80
     else if is_in ["Amer"; "A10"; "MWC"; "WCC"] then 65
     else 50)%Q in
  rank ← num r "AdjEM_Rank";
  let rank_adjustment := ((100 - rank) / 10)%Q in
  Some (Qmin 100 (base_score + rank_adjustment)).

Definition calculate_dominance_score (self : t) (r : row) : option Q :=
  oe ← num r "AdjOE";
  de ← num r "AdjDE";
  let margin := (oe - de)%Q in
  rk ← rankings self;
  all_oe ← column rk "AdjOE";
  all_de ← column rk "AdjDE";
  let all_margins := zip_with Qminus all_oe all_de in
  max_margin ← col_max all_margins;
  min_margin ← col_min all_margins;
  rescale margin min_margin max_margin.

Definition calculate_weighted_score (self : t) (r : row)
  : option (Q * dict Q) :=
  s_off ← calculate_offensive_score self r;
  s_def ← calculate_defensive_score self r;
  team ← r !! "Team";
  s_mom ← calculate_momentum_score self team;
  s_sos ← calculate_schedule_strength_score self r;
  s_dom ← calculate_dominance_score self r;
  let scores := [("offensive_efficiency", s_off);
                 ("defensive_efficiency", s_def); ("momentum", s_mom);
                 ("schedule_strength", s_sos); ("dominance", s_dom)] in
  total_score ←
    foldl (λ acc '(factor, score),
             t ← acc; w ← dict_get (weights self) factor;
             Some (t + w * score)%Q)
          (Some 0%Q) scores;
  Some (total_score, scores).

Definition result_record (self : t) (r : row) : option (dict cell) :=
  '(total_score, component_scores) ← calculate_weighted_score self r;
  team ← r !! "Team";
  conf ← r !! "Conference";
  kenpom ← r !! "AdjEM_Rank";
  adjem ← r !! "AdjEM";
  adjoe ← r !! "AdjOE";
  adjde ← r !! "AdjDE";
  Some ([("Team", team); ("Conference", conf);
         ("Weighted_Score", CNum total_score); ("KenPom_Rank", kenpom);
         ("AdjEM", adjem); ("AdjOE", adjoe); ("AdjDE", adjde)]
          ++ component_columns component_scores).

Definition rank_results (results : list (dict cell)) : option DataFrame :=
  let df := DataFrame_of_records results in
  df ← sort_values_desc df "Weighted_Score";
  df ← setitem df "Weighted_Rank" (range1 (length (df_rows df)));
  set_difference_column df "Rank_Diff" "KenPom_Rank" "Weighted_Rank".

Definition generate_rankings (self : t) : option (t * DataFrame) :=
  rk ← rankings self;
  results ← mapM (result_record self) (df_rows rk);
  df ← rank_results results;
  Some ({| weights := weights self; rankings := rankings self;
           four_factors := four_factors self;
           team_stats := team_stats self;
           games := games self; upsets := upsets self;
           results_df := Some df |}, df).

Definition save_rankings (self : t) (filename : option string)
                         (w : World) : option World :=
  df ← results_df self;
  let filename :=
    default ("data/weighted_rankings_" +:+ w_now w +:+ ".csv") filename in
  Some (to_csv df "data/weighted_rankings_latest.csv"
          (to_csv df filename w)).


End WeightedPowerRankingModel.


(** * swish_score_calculator_v2.py *)

Inductive era := pre_merger | early_modern | golden_age | post_jordan | modern.

Definition era_name (e : era) : string :=
  match e with
  | pre_merger => "pre_merger"
  | early_modern => "early_modern"
  | golden_age => "golden_age"
  | post_jordan => "post_jordan"
  | modern => "modern"
  end.


(** [any(n in name for n in names)] *)
Definition any_in (names : list string) (name : string) : bool :=
  existsb (λ n, contains n name) names.

Module SwishScoreCalculatorV2.

Record t := mk {
  player_data : DataFrame;
  swish_version : string
}.

(** [self.era_stats], without the [years] entries, which are not read. *)
Definition era_stats : dict (dict Q) :=
  [("pre_merger",
    [("avg_ppg", 19.8); ("avg_rpg", 5.9); ("avg_apg", 3.2);
     ("avg_fg_pct", 0.426); ("avg_pace", 110); ("avg_stl", 1.2);
     ("avg_blk", 0.8)]);
   ("early_modern",
    [("avg_ppg", 18.4); ("avg_rpg", 5.2); ("avg_apg", 3.8);
     ("avg_fg_pct", 0.461); ("avg_pace", 103); ("avg_stl", 1.5);
     ("avg_blk", 0.7)]);
   ("golden_age",
    [("avg_ppg", 16.8); ("avg_rpg", 4.8); ("avg_apg", 3.5);
     ("avg_fg_pct", 0.454); ("avg_pace", 95); ("avg_stl", 1.4);
     ("avg_blk", 0.6)]);
   ("post_jordan",
    [("avg_ppg", 15.2); ("avg_rpg", 4.4); ("avg_apg", 3.3);
     ("avg_fg_pct", 0.439); ("avg_pace", 91); ("avg_stl", 1.3);
     ("avg_blk", 0.5)]);
   ("modern",
    [("avg_ppg", 16.5); ("avg_rpg", 4.5); ("avg_apg", 3.6);
     ("avg_fg_pct", 0.449); ("avg_pace", 97); ("avg_stl", 1.2);
     ("avg_blk", 0.5)])]%Q.

(** The era chosen from the player's name when the career years are
    missing; [None] when the name is in none of the lists. *)
Definition era_by_name (name : string) : option era :=
  if any_in ["Russell"; "Chamberlain"; "Robertson"; "West"; "Baylor"] name
  then Some pre_merger
  else if any_in ["Kareem"; "Erving"; "Moses"] name then Some early_modern
  else if any_in ["Jordan"; "Magic"; "Bird"; "Hakeem"; "Barkley";
                  "Malone"; "Stockton"] name then Some golden_age
  else if any_in ["Duncan"; "Kobe"; "Shaq"; "Garnett"; "Dirk"; "Nash";
                  "Iverson"] name then Some post_jordan
  else if any_in ["LeBron"; "Durant"; "Curry"; "Giannis"; "Kawhi";
                  "Harden"; "Chris Paul"] name then Some modern
  else None.

(** The era chosen from the career midpoint. *)
Definition era_by_midpoint (career_mid : Q) : era :=
  if Qltb career_mid 1976 then pre_merger
  else if Qltb career_mid 1985 then early_modern
  else if Qltb career_mid 2000 then golden_age
  else if Qltb career_mid 2010 then post_jordan
  else modern.

Definition get_player_era (r : row) : option era :=
  let start_year := r !! "career_start" in
  let end_year := r !! "career_end" in
  if isna start_year || isna end_year then
    name ← as_str (get r "name" (CStr ""));
    match era_by_name name with
    | Some e => Some e
    | None =>
        (* [championships > 0] is evaluated; both outcomes give modern *)
        match get r "championships" (CNum 0) with
        | CStr _ => None
        | _ => Some modern
        end
    end
  else
    s ← start_year ≫= as_num;
    e ← end_year ≫= as_num;
    let career_mid := ((s + e) / 2)%Q in
    Some (era_by_midpoint career_mid).

Definition assign_player_eras (self : t) : option t :=
  eras ← mapM get_player_era (df_rows (player_data self));
  df ← setitem (player_data self) "era" ((λ e, CStr (era_name e)) <$> eras);
  Some {| player_data := df; swish_version := swish_version self |}.

Definition __init__ (fs : files) (player_data_path : string) : option t :=
  df ← read_csv fs player_data_path;
  self ← assign_player_eras {| player_data := df; swish_version := "" |};
  Some {| player_data := player_data self; swish_version := "2.1" |}.

Definition calculate_era_adjusted_stat
    (player_stat : cell) (stat_name : string) (player_era : cell)
  : option Q :=
  if isna (Some player_stat) || cell_eqb player_stat (CNum 0) then Some 0%Q
  else
    era ← as_str player_era;
    stats ← dict_get era_stats era;
    let era_avg := default 1%Q (dict_get stats ("avg_" +:+ stat_name)) in
    x ← as_num player_stat;
    let era_multiplier := (if Qltb 0 era_avg then x / era_avg else 1)%Q in
    let score :=
      (if bool_decide (stat_name ∈ ["ppg"; "rpg"; "apg"]) then
         Qmin 100 ((era_multiplier - 1) * 150)
       else if bool_decide (stat_name ∈ ["stl"; "blk"]) then
         Qmin 100 ((era_multiplier - 1) * 100)
       else Qmin 100 (Qmax 0 ((x - 0.400) * 500)))%Q in
    Some (Qmax 0 score).

(** [player.get(c, d)] read as a number. *)
Definition getn (player : row) (c : string) (d : Q) : option Q :=
  as_num (get player c (CNum d)).

(** The body of the loop of [calculate_peak_dominance]. *)
Definition peak_score (player : row) : option Q :=
  let era := get player "era" (CStr "modern") in
  let peak_ppg := get player "peak_ppg" (CNum 0) in
  peak_ppg_adjusted ← calculate_era_adjusted_stat peak_ppg "ppg" era;
  peak_per ← getn player "career_per" 15;
  let per_score := Qmin 100 ((peak_per - 15) / 16 * 100)%Q in
  games ← getn player "career_games" 1;
  ws_per_48 ←
    (if Qltb 0 games then
       ws ← getn player "career_ws" 0; Some (ws / games * 48)%Q
     else Some 0%Q);
  let ws48_score := Qmin 100 (ws_per_48 / 0.250 * 100)%Q in
  mvp_shares ← getn player "mvp_shares" 0;
  let mvp_share_score := Qmin 100 (mvp_shares / 5.0 * 100)%Q in
  Some (0.30 * peak_ppg_adjusted + 0.30 * per_score
        + 0.25 * ws48_score + 0.15 * mvp_share_score)%Q.

Definition calculate_peak_dominance (self : t) : option (list Q) :=
  mapM peak_score (df_rows (player_data self)).














Definition columns_to_save : list string :=
  ["GOAT_Rank"; "name"; "era"; "SWISH_Score"; "swish_version";
   "peak_dominance_score"; "career_value_score";
   "championship_impact_score"; "individual_honors_score";
   "statistical_excellence_score"; "longevity_score";
   "career_ppg"; "career_rpg"; "career_apg"; "career_per"; "career_ws";
   "career_ts_pct"; "career_stl_per_g"; "career_blk_per_g";
   "championships"; "finals_mvp"; "mvp"; "all_star"; "dpoy";
   "all_defensive_first"; "all_defensive_second"].

Definition save_rankings (self : t) (filename : string) (w : World)
  : option World :=
  let save_columns :=
    List.filter (λ col, bool_decide (col ∈ df_columns (player_data self)))
                columns_to_save in
  saved ← select_columns (player_data self) save_columns;
  let w := to_csv saved filename w in
  saved ← select_columns (player_data self) save_columns;
  Some (to_csv saved "nba_goat_rankings_swish.csv" w).

End SwishScoreCalculatorV2.

(** * swish_score_calculator.py *)

Module SwishScoreCalculator.

(** [self.eras] *)
Definition eras : list (era * (Q * Q)) :=
  [(pre_merger, (1946, 1975)); (early_modern, (1976, 1984));
   (golden_age, (1985, 1999)); (post_jordan, (2000, 2009));
   (modern, (2010, 2024))]%Q.

Definition is_name (player : row) (names : list string) : bool :=
  match player !! "name" with
  | Some (CStr s) => bool_decide (s ∈ names)
  | _ => false
  end.

(** A missing value stored under [start_year] is not [None]: every
    comparison with it is false and the loop falls through. *)
Definition get_player_era (player : row) : option era :=
  match player !! "start_year" with
  | None =>
      Some (if is_name player ["Bill Russell"; "Wilt Chamberlain";
                               "Jerry West"; "Oscar Robertson";
                               "Elgin Baylor"] then pre_merger
            else if is_name player ["Magic Johnson"; "Larry Bird";
                                    "Julius Erving"; "Moses Malone"]
                 then early_modern
            else if is_name player ["Michael Jordan"; "Hakeem Olajuwon";
                                    "Karl Malone"; "David Robinson"]
                 then golden_age
            else if is_name player ["Kobe Bryant"; "Tim Duncan";
                                    "Shaquille O'Neal"; "Allen Iverson"]
                 then post_jordan
            else modern)
  | Some (CStr _) => None
  | Some CNaN => Some modern
  | Some (CNum start_year) =>
      Some (default modern
              (fst <$> head (List.filter
                               (λ '(_, (lo, hi)),
                                  Qle_bool lo start_year
                                  && Qle_bool start_year hi) eras)))
  end.

End SwishScoreCalculator.

(** * Notions used in the statements *)

(** [desc a b]: the keyed row [a] may stand before [b] in a table sorted
    in descending order. *)
Definition desc {A} (a b : Q * A) : Prop := (fst b <= fst a)%Q.












(** [has_team df name]: some row of [df] has [name] in its [Team] column. *)
Definition has_team (df : DataFrame) (name : string) : Prop :=
  ∃ e, e ∈ df_rows df ∧ e !! "Team" = Some (CStr name).







(** Whether a run ends with a result. *)
Definition is_some_b {A} (o : option A) : bool :=
  match o with Some _ => true | None => false end.

(** * Sample tables *)

Module Samples.

Definition mkrow (l : dict cell) : row := list_to_map l.

Definition team (name conf : string) (em oe de : Q)
                (em_rank oe_rank de_rank : Q) : row :=
  mkrow [("Team", CStr name); ("Conference", CStr conf);
         ("AdjEM", CNum em); ("AdjOE", CNum oe); ("AdjDE", CNum de);
         ("AdjEM_Rank", CNum em_rank); ("AdjOE.Rank", CNum oe_rank);
         ("AdjDE.Rank", CNum de_rank)].

Definition rankings_columns : list string :=
  ["Team"; "Conference"; "AdjEM"; "AdjOE"; "AdjDE"; "AdjEM_Rank";
   "AdjOE.Rank"; "AdjDE.Rank"].

Definition personnel_row (name conf : string) (experience : Q) : row :=
  mkrow [("Team", CStr name); ("Conference", CStr conf);
         ("Experience", CNum experience)].

Definition four_factors_row (name conf : string) (off_to def_to : Q)
  : row :=
  mkrow [("Team", CStr name); ("Conference", CStr conf);
         ("Off-TO%", CNum off_to); ("Def-TO%", CNum def_to)].

Definition tempo_row (name : string) (tempo_rank : Q) : row :=
  mkrow [("Team", CStr name); ("Tempo-Adj.Rank", CNum tempo_rank)].

Definition star_row (player name : string) : row :=
  mkrow [("Player", CStr player); ("Team", CStr name)].

(** Three teams. *)
Definition rankings3 : DataFrame :=
  {| df_columns := rankings_columns;
     df_rows := [team "Duke" "ACC" 30 120 90 1 1 1;
                 team "Kansas" "B12" 20 115 95 2 2 2;
                 team "Yale" "Ivy" 10 110 100 3 3 3]%Q |}.

Definition personnel3 : DataFrame :=
  {| df_columns := ["Team"; "Conference"; "Experience"];
     df_rows := [personnel_row "Kansas" "B12" 2.5;
                 personnel_row "Duke" "ACC" 1.2;
                 personnel_row "Yale" "Ivy" 3.1]%Q |}.

Definition four_factors3 : DataFrame :=
  {| df_columns := ["Team"; "Conference"; "Off-TO%"; "Def-TO%"];
     df_rows := [four_factors_row "Duke" "ACC" 15 21;
                 four_factors_row "Kansas" "B12" 18 17;
                 four_factors_row "Yale" "Ivy" 20 16]%Q |}.

Definition tempo3 : DataFrame :=
  {| df_columns := ["Team"; "Tempo-Adj.Rank"];
     df_rows := [tempo_row "Duke" 40; tempo_row "Kansas" 150;
                 tempo_row "Yale" 340]%Q |}.

Definition player_stats3 : DataFrame :=
  {| df_columns := ["Player"; "Team"];
     df_rows := [star_row "A" "Duke"; star_row "B" "Duke";
                 star_row "C" "Kansas"] |}.

Definition team_stats3 : DataFrame :=
  {| df_columns := ["Team"]; df_rows := [] |}.

Definition files3 : files :=
  <["data/kenpom_rankings_latest.csv" := rankings3]>
  (<["data/kenpom_height_experience_latest.csv" := personnel3]>
  (<["data/kenpom_four_factors_latest.csv" := four_factors3]>
  (<["data/kenpom_tempo_stats_latest.csv" := tempo3]>
  (<["data/kenpom_player_stats_latest.csv" := player_stats3]>
  (<["data/kenpom_team_stats_latest.csv" := team_stats3]> ∅))))).






Definition v3_model : FinalPredictiveModelV3.t :=
  default FinalPredictiveModelV3.__init__
    (FinalPredictiveModelV3.load_all_data FinalPredictiveModelV3.__init__
       files3 "data").


Definition fpm_model : FinalPredictiveModel.t :=
  default FinalPredictiveModel.__init__
    (FinalPredictiveModel.load_all_data FinalPredictiveModel.__init__
       files3 "data").

(** Players. *)
Definition player (name : string) (start_year end_year : Q)
                  (per ppg ws games : Q) : row :=
  mkrow [("name", CStr name); ("career_start", CNum start_year);
         ("career_end", CNum end_year); ("career_per", CNum per);
         ("peak_ppg", CNum ppg); ("career_ppg", CNum ppg);
         ("career_ws", CNum ws); ("career_games", CNum games);
         ("primary_position", CStr "G")].

Definition player_columns : list string :=
  ["name"; "career_start"; "career_end"; "career_per"; "peak_ppg";
   "career_ppg"; "career_ws"; "career_games"; "primary_position"].

Definition players3 : DataFrame :=
  {| df_columns := player_columns;
     df_rows := [player "Role Player" 2005 2015 12 9 30 800;
                 player "Michael Jordan" 1984 2003 27.9 33 214 1072;
                 player "Bill Russell" 1956 1969 18.9 19 163 963]%Q |}.



(** A reserve: efficiency rating 10, below the reference value 15 of
    the peak score. *)
Definition low_per_player : row :=
  mkrow [("name", CStr "Reserve"); ("era", CStr "modern");
         ("career_per", CNum 10); ("peak_ppg", CNum 8);
         ("career_ws", CNum 0.5); ("career_games", CNum 400);
         ("mvp_shares", CNum 0)]%Q.


(** Four-factors rows that carry the two efficiency ranks. *)
Definition four_factors_ranks3 : DataFrame :=
  {| df_columns := ["Team"; "AdjOE.Rank"; "AdjDE.Rank"];
     df_rows :=
       [mkrow [("Team", CStr "Duke"); ("AdjOE.Rank", CNum 1);
               ("AdjDE.Rank", CNum 30)];
        mkrow [("Team", CStr "Kansas"); ("AdjOE.Rank", CNum 2);
               ("AdjDE.Rank", CNum 2)]]%Q |}.

Definition predictive_model : PredictivePowerRankingModel.t :=
  {| PredictivePowerRankingModel.weights :=
       PredictivePowerRankingModel.default_weights;
     PredictivePowerRankingModel.rankings := Some rankings3;
     PredictivePowerRankingModel.four_factors := Some four_factors_ranks3;
     PredictivePowerRankingModel.tempo_stats := Some tempo3;
     PredictivePowerRankingModel.games := Some None;
     PredictivePowerRankingModel.upsets := Some None |}.



Definition jordan : row := player "Michael Jordan" 1984 2003 27.9 33 214 1072.



(** Configured weights: a total of 1.2, and a total of 1.0005. *)
Definition weights_far : dict Q := [("a", 0.6); ("b", 0.6)]%Q.
Definition weights_near : dict Q := [("a", 0.5005); ("b", 0.5)]%Q.

Definition reserve_calculator : SwishScoreCalculatorV2.t :=
  {| SwishScoreCalculatorV2.player_data :=
       {| df_columns := ["name"; "era"; "career_per"; "peak_ppg";
                         "career_ws"; "career_games"; "mvp_shares"];
          df_rows := [low_per_player] |};
     SwishScoreCalculatorV2.swish_version := "2.1" |}.

End Samples.

(** * Properties *)

Local Open Scope Q_scope.

(** ** Runs on the sample tables *)

Lemma is_some_b_true {A} (o : option A) :
  is_some_b o = true → ∃ x, o = Some x.
Proof. destruct o; [eauto | discriminate]. Defined.

Lemma is_some_b_default {A} (o : option A) (d : A) :
  is_some_b o = true → o = Some (default d o).
Proof. destruct o; [reflexivity | discriminate]. Defined.

Ltac bind_inv H x Hx :=
  apply bind_Some in H as (x & Hx & H); cbv beta in H.

(** ** Comparisons *)

Lemma Qltb_lt x y : Qltb x y = true ↔ x < y.
Proof.
  unfold Qltb. rewrite negb_true_iff.
  destruct (Qle_bool y x) eqn:E.
  - apply Qle_bool_iff in E. split; [done | intros H; lra].
  - split; [intros _ | done].
    destruct (Qlt_le_dec x y) as [H | H]; [done |].
    apply Qle_bool_iff in H. congruence.
Qed.

Lemma Qltb_ge x y : Qltb x y = false ↔ y <= x.
Proof.
  unfold Qltb. rewrite negb_false_iff. apply Qle_bool_iff.
Qed.

Lemma Qle_bool_gt x y : Qle_bool x y = false ↔ y < x.
Proof.
  rewrite <- Qltb_lt. unfold Qltb. by destruct (Qle_bool x y).
Qed.

(** ** Sorting *)

Section sorting.
Context {A : Type}.
Implicit Types (x : Q * A) (l : list (Q * A)).

Lemma insert_desc_perm x l : insert_desc x l ≡ₚ x :: l.
Proof.
  induction l as [| y l IH]; simpl; [done |].
  destruct (Qle_bool y.1 x.1); [done |].
  rewrite IH. apply perm_swap.
Qed.

Lemma sort_desc_perm l : sort_desc l ≡ₚ l.
Proof.
  induction l as [| x l IH]; simpl; [done |].
  rewrite insert_desc_perm. by f_equiv.
Qed.




Lemma length_sort_desc l : length (sort_desc l) = length l.
Proof. by rewrite sort_desc_perm. Qed.

(** Sorting a table that is already in descending order changes
    nothing. *)
Lemma insert_desc_head x l :
  Forall (desc x) l → insert_desc x l = x :: l.
Proof.
  destruct 1 as [| y l Hy _]; simpl; [done |].
  unfold desc in Hy. apply Qle_bool_iff in Hy. by rewrite Hy.
Qed.

Lemma sort_desc_id l : StronglySorted desc l → sort_desc l = l.
Proof.
  induction 1 as [| x l Hl IH Hx]; simpl; [done |].
  rewrite IH. by apply insert_desc_head.
Qed.
End sorting.

(** ** Columns and assignments *)





Lemma setitem_Some df c vals df' :
  setitem df c vals = Some df' →
  length vals = length (df_rows df) ∧
  df_rows df' = zip_with (λ r v, <[c := v]> r) (df_rows df) vals ∧
  df_columns df' = (if bool_decide (c ∈ df_columns df) then df_columns df
                    else df_columns df ++ [c]).
Proof.
  unfold setitem. case_decide; [| done]. intros [= <-]. done.
Qed.





(** ** scripts/final_model_v3.py: the table built by [generate_rankings] *)

Ltac destruct_binds H :=
  repeat match type of H with
    | (match ?x with _ => _ end) = Some _ =>
        let E := fresh "E" in destruct x eqn:E; simpl in H; [| discriminate H]
    | mbind _ ?x = Some _ =>
        let E := fresh "E" in destruct x eqn:E; simpl in H; [| discriminate H]
    | (?x ≫= _) = Some _ =>
        let E := fresh "E" in destruct x eqn:E; simpl in H; [| discriminate H]
    | (let '(_, _) := ?p in _) = Some _ => destruct p; simpl in H
    end.




(** ** scripts/final_predictive_model.py: the table built by
       [generate_rankings] *)



(** ** swish_score_calculator_v2.py: the table built by
       [calculate_swish_score] *)







(** ** From sorted keyed rows to ranks *)


Section keyed.
Variables (out : DataFrame) (keyed : list (Q * row)).
Variables (score rank : string).
Hypothesis Hsorted : StronglySorted desc keyed.
Hypothesis Hrows :
  ∀ i e, df_rows out !! i = Some e →
    ∃ key r0, keyed !! i = Some (key, r0) ∧ num e score = Some key ∧
              num e rank = Some (Qnat (S i)).


End keyed.



(** ** C1: the rank is the position, not the dense rank *)





(** ** C5: a smaller rank never goes with a smaller score *)



(** ** C6: the rank delta *)




(** ** C3: the percentile is a share of all entities *)











(** ** C2: sub-scores and the interval from 0 to 100 *)






Lemma Qmax_0_in_range x : x <= 100 → 0 <= Qmax 0 x <= 100.
Proof.
  intros H. destruct (Q.max_spec 0 x) as [[H1 H2] | [H1 H2]];
    rewrite H2; lra.
Qed.



(** C2, at the failing input.  A player with an efficiency rating of 10 (8
    points a game, 0.5 win shares in 400 games, no MVP shares, modern era)
    gets the peak-dominance sub-score -27/8: [per_score] is
    [min(100, (10 - 15) / 16 * 100)], which has no lower clip, unlike the
    era-adjusted statistics of the same class and the turnover-margin
    score of the team model. *)
Theorem C2_peak_dominance_below_zero :
  match SwishScoreCalculatorV2.calculate_peak_dominance
          Samples.reserve_calculator with
  | Some [s] => s == - (27 # 8) ∧ s < 0
  | _ => False
  end.
Proof. vm_compute. split; reflexivity. Qed.

(** ** C4: weights after initialisation *)

Lemma Qsum_foldl acc l : foldl Qplus acc l == acc + Qsum l.
Proof.
  unfold Qsum. revert acc.
  induction l as [| x l IH]; intros acc; simpl; [lra |].
  rewrite (IH (acc + x)), (IH (0 + x)). lra.
Qed.

Lemma Qsum_cons x l : Qsum (x :: l) == x + Qsum l.
Proof. unfold Qsum at 1. simpl. rewrite Qsum_foldl. lra. Qed.

Lemma Qsum_scale t l : Qsum ((λ w, w / t) <$> l) == Qsum l / t.
Proof.
  induction l as [| x l IH]; [reflexivity |].
  rewrite fmap_cons, !Qsum_cons, IH. unfold Qdiv. lra.
Qed.

Lemma dict_values_scale t (d : dict Q) :
  dict_values ((λ '(k, w), (k, w / t)) <$> d) = (λ w, w / t) <$> dict_values d.
Proof.
  unfold dict_values. induction d as [| [k w] d IH]; [done |].
  rewrite !fmap_cons. simpl. f_equal. exact IH.
Qed.

(** What the normalisation block does, by the size of the total. *)
Lemma normalize_weights_Some w w' :
  normalize_weights w = Some w' →
  let total := Qsum (dict_values w) in
  (Qabs (total - 1) <= 0.001 → w' = w) ∧
  (0.001 < Qabs (total - 1) →
   w' = (λ '(k, v), (k, v / total)) <$> w ∧
   (w ≠ [] → ¬ total == 0 ∧ Qsum (dict_values w') == 1)).
Proof.
  unfold normalize_weights. intros H. cbv zeta in H |- *.
  set (total := Qsum (dict_values w)) in *.
  assert (Hone : total - 1.0 == total - 1) by lra.
  destruct (Qltb 0.001 (Qabs (total - 1.0))) eqn:Hlt.
  - apply Qltb_lt in Hlt. rewrite Hone in Hlt.
    split; [intros Hle; lra |]. intros _.
    destruct (Qeq_bool total 0) eqn:Hz.
    + destruct w as [| p w]; [| discriminate H]. injection H as <-.
      split; [done |]. intros Hne. by destruct Hne.
    + injection H as <-. split; [done |]. intros _.
      assert (Hnz : ¬ total == 0).
      { intros Heq. apply Qeq_bool_iff in Heq. congruence. }
      split; [done |].
      rewrite dict_values_scale, Qsum_scale. fold total. by field.
  - apply Qltb_ge in Hlt. rewrite Hone in Hlt.
    injection H as <-. split; [done |].
    intros Hgt. lra.
Qed.

(** The sum stays within the tolerance of 1 in either case. *)
Lemma normalize_weights_tolerance w w' :
  normalize_weights w = Some w' → w ≠ [] →
  Qabs (Qsum (dict_values w') - 1) <= 0.001.
Proof.
  intros H Hne. apply normalize_weights_Some in H as [H1 H2].
  destruct (Qlt_le_dec 0.001 (Qabs (Qsum (dict_values w) - 1))) as [Hlt | Hle].
  - destruct (H2 Hlt) as [_ H3]. destruct (H3 Hne) as [_ ->].
    vm_compute. discriminate.
  - by rewrite (H1 Hle).
Qed.

(** C4 (as amended).  After initialisation the factor weights sum to 1.0
    within the tolerance 0.001.  The scripts with fixed weights (final
    model V3, final predictive model) and the defaults of the scripts that
    take weights sum to exactly 1.0 and are not renormalised.  The scripts
    that take weights (predictive model, weighted model v2, hybrid model)
    divide every weight by the total only when the total is further than
    0.001 from 1.0, and the sum is then exactly 1.0; otherwise they keep
    the configured weights as they are. *)
Theorem C4_weights_sum_to_one_within_tolerance :
  (Qsum (dict_values (FinalPredictiveModelV3.weights
                        FinalPredictiveModelV3.__init__)) == 1 ∧
   Qsum (dict_values (FinalPredictiveModel.weights
                        FinalPredictiveModel.__init__)) == 1 ∧
   Qsum (dict_values PredictivePowerRankingModel.default_weights) == 1 ∧
   Qsum (dict_values WeightedPowerRankingModel.default_weights) == 1) ∧
  (∀ w m,
     PredictivePowerRankingModel.__init__ (Some w) = Some m →
     let total := Qsum (dict_values w) in
     let w' := PredictivePowerRankingModel.weights m in
     (Qabs (total - 1) <= 0.001 → w' = w) ∧
     (0.001 < Qabs (total - 1) → w ≠ [] →
      w' = (λ '(k, v), (k, v / total)) <$> w ∧ Qsum (dict_values w') == 1) ∧
     (w ≠ [] → Qabs (Qsum (dict_values w') - 1) <= 0.001)) ∧
  (∀ w m,
     WeightedPowerRankingModel.__init__ (Some w) = Some m →
     let total := Qsum (dict_values w) in
     let w' := WeightedPowerRankingModel.weights m in
     (Qabs (total - 1) <= 0.001 → w' = w) ∧
     (0.001 < Qabs (total - 1) → w ≠ [] →
      w' = (λ '(k, v), (k, v / total)) <$> w ∧ Qsum (dict_values w') == 1) ∧
     (w ≠ [] → Qabs (Qsum (dict_values w') - 1) <= 0.001)) ∧
  (∀ b r m,
     HybridPowerRankingModel.__init__ b r = Some m →
     let b' := HybridPowerRankingModel.base_weight m in
     let r' := HybridPowerRankingModel.results_weight m in
     (Qabs (b + r - 1) <= 0.001 → b' = b ∧ r' = r) ∧
     (0.001 < Qabs (b + r - 1) →
      b' = b / (b + r) ∧ r' = r / (b + r) ∧ b' + r' == 1)).
Proof.
  split; [vm_compute; tauto |]. split_and!.
  - intros w m H total w'.
    unfold PredictivePowerRankingModel.__init__ in H. simpl in H.
    destruct (normalize_weights w) as [nw |] eqn:Hn; [| discriminate H].
    simpl in H. injection H as <-. subst w'. simpl.
    pose proof (normalize_weights_Some _ _ Hn) as [H1 H2].
    split_and!; [exact H1 | | by apply normalize_weights_tolerance].
    intros Hgt Hne. destruct (H2 Hgt) as [H3 H4].
    split; [exact H3 |]. by apply H4.
  - intros w m H total w'.
    unfold WeightedPowerRankingModel.__init__ in H. simpl in H.
    destruct (normalize_weights w) as [nw |] eqn:Hn; [| discriminate H].
    simpl in H. injection H as <-. subst w'. simpl.
    pose proof (normalize_weights_Some _ _ Hn) as [H1 H2].
    split_and!; [exact H1 | | by apply normalize_weights_tolerance].
    intros Hgt Hne. destruct (H2 Hgt) as [H3 H4].
    split; [exact H3 |]. by apply H4.
  - intros b r m H b' r'. subst b' r'.
    unfold HybridPowerRankingModel.__init__ in H.
    assert (Hone : b + r - 1.0 == b + r - 1) by lra.
    destruct (Qltb 0.001 (Qabs (b + r - 1.0))) eqn:Hlt.
    + apply Qltb_lt in Hlt. rewrite Hone in Hlt.
      split; [intros Hle; lra |]. intros _.
      destruct (Qeq_bool (b + r) 0) eqn:Hz; [discriminate H |].
      injection H as <-.
      cbn [HybridPowerRankingModel.base_weight
           HybridPowerRankingModel.results_weight].
      split_and!; [done | done |].
      assert (Hnz : ¬ b + r == 0).
      { intros Heq. apply Qeq_bool_iff in Heq. congruence. }
      by field.
    + apply Qltb_ge in Hlt. rewrite Hone in Hlt. injection H as <-.
      cbn [HybridPowerRankingModel.base_weight
           HybridPowerRankingModel.results_weight].
      split; [done |]. intros Hgt. lra.
Qed.

Lemma C4_weights_witness :
  (∃ m, PredictivePowerRankingModel.__init__ (Some Samples.weights_far)
          = Some m ∧
        PredictivePowerRankingModel.weights m
          = (λ '(k, v), (k, v / Qsum (dict_values Samples.weights_far)))
              <$> Samples.weights_far ∧
        Qsum (dict_values (PredictivePowerRankingModel.weights m)) == 1) ∧
  (∃ m, WeightedPowerRankingModel.__init__ (Some Samples.weights_near)
          = Some m ∧
        WeightedPowerRankingModel.weights m = Samples.weights_near) ∧
  (∃ m, HybridPowerRankingModel.__init__ 0.9 0.3 = Some m ∧
        HybridPowerRankingModel.base_weight m
        + HybridPowerRankingModel.results_weight m == 1).
Proof.
  split; [| split].
  - destruct (is_some_b_true
                (PredictivePowerRankingModel.__init__
                   (Some Samples.weights_far)))
      as [m E]; [vm_compute; reflexivity |].
    exists m. split; [exact E |].
    destruct (proj1 (proj2 C4_weights_sum_to_one_within_tolerance)
                _ _ E) as (_ & H & _).
    apply H; [vm_compute; reflexivity | discriminate].
  - destruct (is_some_b_true
                (WeightedPowerRankingModel.__init__
                   (Some Samples.weights_near)))
      as [m E]; [vm_compute; reflexivity |].
    exists m. split; [exact E |].
    destruct (proj1 (proj2 (proj2 C4_weights_sum_to_one_within_tolerance))
                _ _ E) as (H & _ & _).
    apply H. vm_compute. discriminate.
  - destruct (is_some_b_true (HybridPowerRankingModel.__init__ 0.9 0.3))
      as [m E]; [vm_compute; reflexivity |].
    exists m. split; [exact E |].
    destruct (proj2 (proj2 (proj2 C4_weights_sum_to_one_within_tolerance))
                _ _ _ E) as (_ & H).
    apply H. vm_compute. reflexivity.
Defined.

(** C4 as stated fails: configured weights 0.5005 and 0.5 sum to 1.0005,
    which is not 1.0, and the predictive model keeps them as they are. *)
Lemma C4_weights_counterexample :
  match PredictivePowerRankingModel.__init__ (Some Samples.weights_near) with
  | Some m =>
      PredictivePowerRankingModel.weights m = Samples.weights_near ∧
      Qsum (dict_values Samples.weights_near) == 1.0005 ∧
      ¬ Qsum (dict_values (PredictivePowerRankingModel.weights m)) == 1
  | None => False
  end.
Proof.
  vm_compute. split_and!; [reflexivity | reflexivity |].
  intros H. discriminate H.
Qed.

(** ** C9: era buckets *)




(** ** C10: what [calculate_swish_score] leaves alone *)



(** ** C8: the loaders *)

Lemma key_eqb_str (name : string) (k : option cell) :
  key_eqb (Some (CStr name)) k = true ↔ k = Some (CStr name).
Proof.
  destruct k as [[q | s |] |]; simpl; try (split; congruence).
  rewrite bool_decide_eq_true. split; congruence.
Qed.

Lemma key_eqb_str_l (name : string) (k : option cell) :
  key_eqb k (Some (CStr name)) = true ↔ k = Some (CStr name).
Proof.
  destruct k as [[q | s |] |]; simpl; try (split; congruence).
  rewrite bool_decide_eq_true. split; congruence.
Qed.

(** The rows of an inner join: one for every matching pair, carrying the
    key of the left row. *)
Lemma merge_inner_rows left right on sfx m :
  merge_inner left right on sfx = Some m →
  (∀ e, e ∈ df_rows m →
     ∃ l r, l ∈ df_rows left ∧ r ∈ df_rows right ∧
            key_eqb (l !! on) (r !! on) = true ∧ e !! on = l !! on) ∧
  (∀ l r, l ∈ df_rows left → r ∈ df_rows right →
          key_eqb (l !! on) (r !! on) = true →
          ∃ e, e ∈ df_rows m ∧ e !! on = l !! on).
Proof.
  unfold merge_inner. intros H.
  destruct (bool_decide (on ∈ df_columns left)
            && bool_decide (on ∈ df_columns right)) eqn:Hon; [| done].
  apply andb_true_iff in Hon as [Hl _]. apply bool_decide_eq_true in Hl.
  case_bool_decide as Hnd; [| done]. injection H as <-. simpl.
  set (rename := λ c : string,
         if bool_decide (c ∈ df_columns left) then c +:+ sfx else c) in *.
  set (rcols := List.filter (λ c, negb (bool_decide (c = on)))
                            (df_columns right)) in *.
  assert (Hren : ∀ c, c ∈ rcols → rename c ≠ on).
  { intros c Hc Heq. apply NoDup_app in Hnd as (_ & Hdisj & _).
    apply (Hdisj on Hl). rewrite <- Heq.
    apply list_elem_of_fmap. by exists c. }
  assert (Hcomb : ∀ (l r : row) cs, (∀ c, c ∈ cs → rename c ≠ on) →
            foldr (λ c acc, match r !! c with
                            | Some v => <[rename c := v]> acc
                            | None => acc
                            end) l cs !! on = l !! on).
  { intros l r cs. induction cs as [| c cs IH]; intros Hcs; [done |].
    simpl. assert (Hrest : ∀ c', c' ∈ cs → rename c' ≠ on).
    { intros c' Hc'. apply Hcs. by right. }
    destruct (r !! c); [| by apply IH].
    rewrite lookup_insert_ne; [by apply IH |]. apply Hcs. by left. }
  split.
  - intros e He. apply list_elem_of_bind in He as (l & He & Hlin).
    apply list_elem_of_bind in He as (r & He & Hrin).
    destruct (key_eqb (l !! on) (r !! on)) eqn:Hk;
      [| by apply elem_of_nil in He].
    apply list_elem_of_singleton in He as ->.
    exists l, r. split_and!; [done | done | done |]. by apply Hcomb.
  - intros l r Hlin Hrin Hk. eexists. split.
    + apply list_elem_of_bind. exists l. split; [| done].
      apply list_elem_of_bind. exists r. split; [| done].
      rewrite Hk. by apply list_elem_of_singleton.
    + by apply Hcomb.
Qed.

Lemma merge_inner_has_team left right sfx m name :
  merge_inner left right "Team" sfx = Some m →
  has_team m name ↔ has_team left name ∧ has_team right name.
Proof.
  intros H. apply merge_inner_rows in H as [H1 H2]. split.
  - intros (e & He & Ht). destruct (H1 e He) as (l & r & Hl & Hr & Hk & Heq).
    rewrite Ht in Heq. symmetry in Heq. rewrite Heq in Hk.
    apply key_eqb_str in Hk. split; [by exists l | by exists r].
  - intros [(l & Hl & Hlt) (r & Hr & Hrt)].
    destruct (H2 l r Hl Hr) as (e & He & Heq).
    { rewrite Hlt. by apply key_eqb_str. }
    exists e. split; [done |]. by rewrite Heq.
Qed.

Lemma foldr_delete_lookup_ne (r : row) (cols : list string) c :
  c ∉ cols → foldr delete r cols !! c = r !! c.
Proof.
  induction cols as [| c' cols IH]; intros Hc; [done |].
  apply not_elem_of_cons in Hc as [Hne Hc].
  simpl. rewrite lookup_delete_ne; [by apply IH | done].
Qed.

Lemma drop_columns_has_team df cols name :
  "Team" ∉ cols → has_team (drop_columns df cols) name ↔ has_team df name.
Proof.
  intros Hc. unfold has_team, drop_columns. simpl. split.
  - intros (e & He & Ht). apply list_elem_of_fmap in He as (r & -> & Hr).
    exists r. split; [done |]. by rewrite foldr_delete_lookup_ne in Ht.
  - intros (r & Hr & Ht). exists (foldr delete r cols). split.
    + apply list_elem_of_fmap. by exists r.
    + by rewrite foldr_delete_lookup_ne.
Qed.


Lemma elem_of_List_filter {A} (f : A → bool) (l : list A) x :
  x ∈ List.filter f l ↔ x ∈ l ∧ f x = true.
Proof. rewrite !list_elem_of_In. apply filter_In. Qed.




(** ** C7: the same input gives the same table *)











(** * Further properties of the scoring code *)

(** ** Bounds of the team sub-scores *)










(** ** Bounds in the final predictive model *)










(** ** Bounds of the SWISH components *)

Lemma Qmin_100_le x : Qmin 100 x <= 100.
Proof. apply Q.le_min_l. Qed.

Lemma era_adjusted_stat_bounds player_stat stat_name player_era s :
  SwishScoreCalculatorV2.calculate_era_adjusted_stat
    player_stat stat_name player_era = Some s →
  0 <= s <= 100.
Proof.
  unfold SwishScoreCalculatorV2.calculate_era_adjusted_stat. intros H.
  destruct (isna (Some player_stat) || cell_eqb player_stat (CNum 0)).
  { injection H as <-. lra. }
  destruct_binds H. injection H as <-.
  apply Qmax_0_in_range.
  repeat case_bool_decide; apply Qmin_100_le.
Qed.

(** X3.  [calculate_era_adjusted_stat] returns a value between 0 and 100
    whenever it returns one, for every statistic, statistic name and era:
    every branch is clipped on both sides; and a missing or zero statistic
    gives 0 whatever the era, even an era that is not in [era_stats]. *)
Theorem X3_era_adjusted_stat_in_range player_stat stat_name player_era :
  (∀ s, SwishScoreCalculatorV2.calculate_era_adjusted_stat
          player_stat stat_name player_era = Some s → 0 <= s <= 100) ∧
  (isna (Some player_stat) = true ∨ player_stat = CNum 0 →
   SwishScoreCalculatorV2.calculate_era_adjusted_stat
     player_stat stat_name player_era = Some 0).
Proof.
  split; [intros s; apply era_adjusted_stat_bounds |].
  unfold SwishScoreCalculatorV2.calculate_era_adjusted_stat.
  intros [-> | ->]; reflexivity.
Qed.

Lemma X3_era_adjusted_stat_witness :
  ∃ s, SwishScoreCalculatorV2.calculate_era_adjusted_stat
         (CNum 33) "ppg" (CStr "golden_age") = Some s ∧ 0 <= s <= 100.
Proof.
  destruct (is_some_b_true
              (SwishScoreCalculatorV2.calculate_era_adjusted_stat
                 (CNum 33) "ppg" (CStr "golden_age")))
    as [s E]; [vm_compute; reflexivity |].
  exists s. split; [exact E |].
  exact (proj1 (X3_era_adjusted_stat_in_range _ _ _) _ E).
Defined.








(** ** The SWISH score is at most 100 *)










(** ** The ranking keeps every team *)



(** ** What [load_all_data] builds, and when it fails *)








(** ** Normalising the weights: errors and fixed points *)

Lemma dict_keys_scale t (d : dict Q) :
  ((λ '(k, w), (k, w / t)) <$> d).*1 = d.*1.
Proof.
  induction d as [| [k w] d IH]; [done |].
  rewrite !fmap_cons. simpl. f_equal. exact IH.
Qed.

Lemma normalize_weights_None w :
  normalize_weights w = None ↔ w ≠ [] ∧ Qsum (dict_values w) == 0.
Proof.
  unfold normalize_weights. set (total := Qsum (dict_values w)).
  assert (Hone : total - 1.0 == total - 1) by lra.
  split.
  - intros H. destruct (Qltb 0.001 (Qabs (total - 1.0))); [| discriminate H].
    destruct (Qeq_bool total 0) eqn:Hz; [| discriminate H].
    destruct w; [discriminate H |]. split; [done |].
    by apply Qeq_bool_iff.
  - intros [Hne Hz].
    assert (Qltb 0.001 (Qabs (total - 1.0)) = true) as ->.
    { apply Qltb_lt. rewrite Hone, Hz. vm_compute. reflexivity. }
    apply Qeq_bool_iff in Hz. rewrite Hz. by destruct w.
Qed.

Lemma normalize_weights_fixpoint w w' :
  normalize_weights w = Some w' → normalize_weights w' = Some w'.
Proof.
  intros H. destruct w as [| p w].
  - vm_compute in H. injection H as <-. vm_compute. reflexivity.
  - assert (Hne' : w' ≠ []).
    { apply normalize_weights_Some in H as [H1 H2].
      destruct (Qlt_le_dec 0.001 (Qabs (Qsum (dict_values (p :: w)) - 1)))
        as [Hlt | Hle].
      - destruct (H2 Hlt) as [-> _]. discriminate.
      - rewrite (H1 Hle). discriminate. }
    pose proof (normalize_weights_tolerance _ _ H ltac:(discriminate)) as Ht.
    unfold normalize_weights.
    assert (Hone : Qsum (dict_values w') - 1.0 == Qsum (dict_values w') - 1)
      by lra.
    assert (Qltb 0.001 (Qabs (Qsum (dict_values w') - 1.0)) = false) as ->.
    { apply Qltb_ge. by rewrite Hone. }
    reflexivity.
Qed.

Lemma normalize_weights_keys w w' :
  normalize_weights w = Some w' → w'.*1 = w.*1.
Proof.
  intros H. apply normalize_weights_Some in H as [H1 H2].
  destruct (Qlt_le_dec 0.001 (Qabs (Qsum (dict_values w) - 1)))
    as [Hlt | Hle].
  - destruct (H2 Hlt) as [-> _]. apply dict_keys_scale.
  - by rewrite (H1 Hle).
Qed.

(** X8.  Initialising the predictive model (and the weighted model, which
    shares the block) with configured weights fails exactly when there are
    weights and they sum to zero (the division raises); otherwise the
    factors keep their names and order, and initialising again with the
    resulting weights changes nothing. *)
Theorem X8_init_weights_errors_and_fixed_point w :
  (PredictivePowerRankingModel.__init__ (Some w) = None ↔
   w ≠ [] ∧ Qsum (dict_values w) == 0) ∧
  (WeightedPowerRankingModel.__init__ (Some w) = None ↔
   w ≠ [] ∧ Qsum (dict_values w) == 0) ∧
  (∀ m, PredictivePowerRankingModel.__init__ (Some w) = Some m →
     (PredictivePowerRankingModel.weights m).*1 = w.*1 ∧
     PredictivePowerRankingModel.__init__
       (Some (PredictivePowerRankingModel.weights m)) = Some m) ∧
  (∀ m, WeightedPowerRankingModel.__init__ (Some w) = Some m →
     (WeightedPowerRankingModel.weights m).*1 = w.*1 ∧
     WeightedPowerRankingModel.__init__
       (Some (WeightedPowerRankingModel.weights m)) = Some m).
Proof.
  split_and!.
  - unfold PredictivePowerRankingModel.__init__. simpl.
    rewrite <- normalize_weights_None.
    destruct (normalize_weights w); simpl; split; congruence.
  - unfold WeightedPowerRankingModel.__init__. simpl.
    rewrite <- normalize_weights_None.
    destruct (normalize_weights w); simpl; split; congruence.
  - intros m H. unfold PredictivePowerRankingModel.__init__ in *.
    simpl in *.
    destruct (normalize_weights w) as [w' |] eqn:Hn; [| discriminate H].
    simpl in H. injection H as <-. simpl.
    split; [by apply normalize_weights_keys |].
    by rewrite (normalize_weights_fixpoint _ _ Hn).
  - intros m H. unfold WeightedPowerRankingModel.__init__ in *.
    simpl in *.
    destruct (normalize_weights w) as [w' |] eqn:Hn; [| discriminate H].
    simpl in H. injection H as <-. simpl.
    split; [by apply normalize_weights_keys |].
    by rewrite (normalize_weights_fixpoint _ _ Hn).
Qed.

Lemma X8_init_weights_witness :
  PredictivePowerRankingModel.__init__ (Some [("a", 0.5); ("b", -0.5)])
    = None ∧
  ∃ m, PredictivePowerRankingModel.__init__ (Some Samples.weights_far)
         = Some m ∧
       PredictivePowerRankingModel.__init__
         (Some (PredictivePowerRankingModel.weights m)) = Some m.
Proof.
  split.
  - apply (proj1 (X8_init_weights_errors_and_fixed_point _)).
    split; [discriminate | vm_compute; reflexivity].
  - destruct (is_some_b_true
                (PredictivePowerRankingModel.__init__
                   (Some Samples.weights_far)))
      as [m E]; [vm_compute; reflexivity |].
    exists m. split; [exact E |].
    exact (proj2 (proj1 (proj2 (proj2
             (X8_init_weights_errors_and_fixed_point _))) m E)).
Defined.

(** ** The weighted model: component scores *)



















(** ** The weighted model: momentum, schedule strength and the total *)











(** ** Eras *)

Lemma era_stats_has_every_era e :
  is_Some (dict_get SwishScoreCalculatorV2.era_stats (era_name e)).
Proof. destruct e; vm_compute; eauto. Qed.

Lemma era_adjusted_stat_of_era q stat_name e :
  is_Some (SwishScoreCalculatorV2.calculate_era_adjusted_stat
             (CNum q) stat_name (CStr (era_name e))).
Proof.
  unfold SwishScoreCalculatorV2.calculate_era_adjusted_stat.
  destruct (isna (Some (CNum q)) || cell_eqb (CNum q) (CNum 0)); [eauto |].
  cbn [as_str mbind option_bind].
  destruct (era_stats_has_every_era e) as [stats ->].
  cbn [as_num mbind option_bind]. eauto.
Qed.

(** X12.  [assign_player_eras] keeps the number and order of the players
    and changes nothing but the [era] column, where it stores the name of
    the era found by [get_player_era]; the name is always one of the five
    of [era_stats], so the era adjustment of a numeric statistic of such a
    row never fails. *)
Theorem X12_assign_player_eras_rows self self' :
  SwishScoreCalculatorV2.assign_player_eras self = Some self' →
  let before := SwishScoreCalculatorV2.player_data self in
  let after := SwishScoreCalculatorV2.player_data self' in
  SwishScoreCalculatorV2.swish_version self'
    = SwishScoreCalculatorV2.swish_version self ∧
  (∀ c, c ∈ df_columns after ↔ c ∈ df_columns before ∨ c = "era") ∧
  Forall2 (λ r r',
             ∃ e, SwishScoreCalculatorV2.get_player_era r = Some e ∧
                  r' = <["era" := CStr (era_name e)]> r ∧
                  ∀ q stat_name,
                    is_Some (SwishScoreCalculatorV2.calculate_era_adjusted_stat
                               (CNum q) stat_name
                               (get r' "era" (CStr "modern"))))
          (df_rows before) (df_rows after).
Proof.
  unfold SwishScoreCalculatorV2.assign_player_eras. intros H.
  bind_inv H eras Heras. bind_inv H df Hdf. injection H as <-.
  cbn [SwishScoreCalculatorV2.player_data
       SwishScoreCalculatorV2.swish_version].
  apply setitem_Some in Hdf as (Hlen & Hrows & Hcols).
  split; [reflexivity |]. split.
  - intros c. rewrite Hcols. case_bool_decide as Hin.
    + split; [by left | intros [? | ->]; done].
    + rewrite elem_of_app, elem_of_cons, elem_of_nil. tauto.
  - rewrite Hrows. apply mapM_Some_1 in Heras.
    clear Hlen Hrows Hcols.
    induction Heras as [| r e rows eras Hre _ IH]; [constructor |].
    rewrite fmap_cons. cbn [zip_with]. constructor; [| exact IH].
    exists e. split; [exact Hre |]. split; [reflexivity |].
    intros q stat_name. unfold get. rewrite lookup_insert. cbn [default].
    apply era_adjusted_stat_of_era.
Qed.

Lemma X12_assign_player_eras_witness :
  ∃ self',
    SwishScoreCalculatorV2.assign_player_eras
      {| SwishScoreCalculatorV2.player_data := Samples.players3;
         SwishScoreCalculatorV2.swish_version := "" |} = Some self' ∧
    ∀ c, c ∈ df_columns (SwishScoreCalculatorV2.player_data self') ↔
         c ∈ df_columns Samples.players3 ∨ c = "era".
Proof.
  destruct (is_some_b_true
              (SwishScoreCalculatorV2.assign_player_eras
                 {| SwishScoreCalculatorV2.player_data := Samples.players3;
                    SwishScoreCalculatorV2.swish_version := "" |}))
    as [self' E]; [vm_compute; reflexivity |].
  exists self'. split; [exact E |].
  exact (proj1 (proj2 (X12_assign_player_eras_rows _ _ E))).
Defined.

(** X13.  In the earlier calculator a player with a numeric [start_year]
    gets the era whose year range contains it, whatever the player's name:
    1946-1975, 1976-1984, 1985-1999, 2000-2009, and modern from 2010 on;
    a start year before 1946, after 2024, or strictly between two ranges
    falls through the loop and gives modern as well.  A missing value
    ([NaN]) gives modern too. *)
Theorem X13_v1_era_by_start_year player :
  (∀ y, player !! "start_year" = Some (CNum y) →
     ∃ e, SwishScoreCalculator.get_player_era player = Some e ∧
       (1946 <= y <= 1975 → e = pre_merger) ∧
       (1976 <= y <= 1984 → e = early_modern) ∧
       (1985 <= y <= 1999 → e = golden_age) ∧
       (2000 <= y <= 2009 → e = post_jordan) ∧
       (y < 1946 ∨ 2009 < y → e = modern) ∧
       (1975 < y < 1976 ∨ 1984 < y < 1985 ∨ 1999 < y < 2000 →
        e = modern)) ∧
  (player !! "start_year" = Some CNaN →
   SwishScoreCalculator.get_player_era player = Some modern).
Proof.
  split.
  - intros y H. unfold SwishScoreCalculator.get_player_era. rewrite H.
    eexists. split; [reflexivity |].
    cbn [SwishScoreCalculator.eras List.filter].
    repeat match goal with
           | |- context [Qle_bool ?a ?b] =>
               destruct (Qle_bool a b) eqn:?;
               cbn [andb head fmap option_fmap option_map default fst]
           end;
      repeat match goal with
             | H : Qle_bool _ _ = true |- _ => apply Qle_bool_iff in H
             | H : Qle_bool _ _ = false |- _ => apply Qle_bool_gt in H
             end;
      repeat split; intros; try reflexivity; exfalso; intuition lra.
  - intros H. unfold SwishScoreCalculator.get_player_era. by rewrite H.
Qed.

Lemma X13_v1_era_by_start_year_witness :
  SwishScoreCalculator.get_player_era
    (<["start_year" := CNum 1940]> Samples.jordan) = Some modern ∧
  SwishScoreCalculator.get_player_era
    (<["start_year" := CNum 1984]> Samples.jordan) = Some early_modern.
Proof.
  split.
  - destruct (proj1 (X13_v1_era_by_start_year
                       (<["start_year" := CNum 1940]> Samples.jordan))
                1940 (lookup_insert_eq _ _ _))
      as (e & -> & _ & _ & _ & _ & H & _).
    f_equal. apply H. left. reflexivity.
  - destruct (proj1 (X13_v1_era_by_start_year
                       (<["start_year" := CNum 1984]> Samples.jordan))
                1984 (lookup_insert_eq _ _ _))
      as (e & -> & _ & H & _).
    f_equal. apply H. split; vm_compute; discriminate.
Defined.

(** ** The predictive model: component scores *)










(** X15.  A name that is in none of the tables: the consistency and the
    pace flexibility default to 50, while the recent performance and the
    experience, which index the empty selection, fail, and with them the
    pace flexibility of a team that is in the tempo table but not in the
    rankings. *)
Theorem X15_predictive_unknown_team self rk ff ts name :
  PredictivePowerRankingModel.rankings self = Some rk →
  PredictivePowerRankingModel.four_factors self = Some ff →
  PredictivePowerRankingModel.tempo_stats self = Some ts →
  first_where rk "Team" name = None →
  ("Team" ∈ df_columns ff → first_where ff "Team" name = None →
   PredictivePowerRankingModel.calculate_consistency self name
     = Some 50) ∧
  ("Team" ∈ df_columns ts → first_where ts "Team" name = None →
   PredictivePowerRankingModel.calculate_pace_flexibility self name
     = Some 50) ∧
  (is_Some (first_where ts "Team" name) →
   PredictivePowerRankingModel.calculate_pace_flexibility self name
     = None) ∧
  PredictivePowerRankingModel.calculate_recent_performance self name
    = None ∧
  PredictivePowerRankingModel.calculate_experience self name = None.
Proof.
  intros Hrk Hff Hts Hnone. split_and!.
  - intros Hc Hn. unfold PredictivePowerRankingModel.calculate_consistency.
    rewrite Hff. simpl. by rewrite (bool_decide_eq_true_2 _ Hc), Hn.
  - intros Hc Hn.
    unfold PredictivePowerRankingModel.calculate_pace_flexibility.
    rewrite Hts. simpl. by rewrite (bool_decide_eq_true_2 _ Hc), Hn.
  - intros [team_tempo Ht].
    unfold PredictivePowerRankingModel.calculate_pace_flexibility.
    rewrite Hts. simpl.
    destruct (bool_decide ("Team" ∈ df_columns ts)); [| reflexivity].
    rewrite Ht.
    destruct (team_tempo !! "Tempo-Adj.Rank") as [[x | |] |];
      cbn [mbind option_bind]; try reflexivity;
      rewrite Hrk; cbn [mbind option_bind]; by rewrite Hnone.
  - unfold PredictivePowerRankingModel.calculate_recent_performance.
    rewrite Hrk. cbn [mbind option_bind]. by rewrite Hnone.
  - unfold PredictivePowerRankingModel.calculate_experience.
    rewrite Hrk. cbn [mbind option_bind]. by rewrite Hnone.
Qed.

Lemma X15_predictive_unknown_team_witness :
  PredictivePowerRankingModel.calculate_consistency
    Samples.predictive_model (CStr "Gonzaga") = Some 50 ∧
  PredictivePowerRankingModel.calculate_recent_performance
    Samples.predictive_model (CStr "Gonzaga") = None.
Proof.
  destruct (X15_predictive_unknown_team Samples.predictive_model
              Samples.rankings3 Samples.four_factors_ranks3 Samples.tempo3
              (CStr "Gonzaga") eq_refl eq_refl eq_refl)
    as (H1 & _ & _ & H4 & _); [vm_compute; reflexivity |].
  split; [| exact H4].
  apply H1; [| vm_compute; reflexivity].
  cbn [Samples.four_factors_ranks3 df_columns]. by left.
Defined.

(** ** The rankings of the weighted and of the predictive model *)









(** ** The SWISH components are not negative for non-negative inputs *)


















(** ** The script of the weighted model *)



(** ** The loader of the final predictive model *)

Lemma merge_inner_columns_left left right on sfx m c :
  merge_inner left right on sfx = Some m →
  c ∈ df_columns left → c ∈ df_columns m.
Proof.
  unfold merge_inner. intros H Hc.
  destruct (_ && _); [| discriminate H].
  cbv zeta in H. case_bool_decide; [| discriminate H].
  injection H as <-. cbn [df_columns]. apply elem_of_app. by left.
Qed.

(** X20.  [load_all_data] of the final predictive model needs all four
    files.  The table it builds has exactly the teams found in the
    rankings, the personnel and the tempo file (the player file is kept
    aside and does not restrict the teams); of the columns whose name
    contains [Conference] only [Conference] itself is left, and every
    other column of the rankings file is kept. *)
Theorem X20_fpm_load_all_data self (fs : files) data_dir :
  (fs !! (data_dir +:+ "/kenpom_rankings_latest.csv") = None ∨
   fs !! (data_dir +:+ "/kenpom_height_experience_latest.csv") = None ∨
   fs !! (data_dir +:+ "/kenpom_tempo_stats_latest.csv") = None ∨
   fs !! (data_dir +:+ "/kenpom_player_stats_latest.csv") = None →
   FinalPredictiveModel.load_all_data self fs data_dir = None) ∧
  (∀ self',
     FinalPredictiveModel.load_all_data self fs data_dir = Some self' →
     ∃ rk pe te ps d,
       fs !! (data_dir +:+ "/kenpom_rankings_latest.csv") = Some rk ∧
       fs !! (data_dir +:+ "/kenpom_height_experience_latest.csv")
         = Some pe ∧
       fs !! (data_dir +:+ "/kenpom_tempo_stats_latest.csv") = Some te ∧
       fs !! (data_dir +:+ "/kenpom_player_stats_latest.csv") = Some ps ∧
       FinalPredictiveModel.player_stats self' = Some ps ∧
       FinalPredictiveModel.weights self'
         = FinalPredictiveModel.weights self ∧
       FinalPredictiveModel.data self' = Some d ∧
       (∀ name, has_team d name ↔
                has_team rk name ∧ has_team pe name ∧ has_team te name) ∧
       (∀ c, contains "Conference" c = true → c ≠ "Conference" →
             c ∉ df_columns d) ∧
       (∀ c, c ∈ df_columns rk → contains "Conference" c = false →
             c ∈ df_columns d) ∧
       ("Conference" ∈ df_columns rk → "Conference" ∈ df_columns d)).
Proof.
  unfold FinalPredictiveModel.load_all_data, read_csv. split.
  - intros H.
    destruct (fs !! (data_dir +:+ "/kenpom_rankings_latest.csv"));
      [| reflexivity].
    destruct (fs !! (data_dir +:+ "/kenpom_height_experience_latest.csv"));
      [| reflexivity].
    destruct (fs !! (data_dir +:+ "/kenpom_tempo_stats_latest.csv"));
      [| reflexivity].
    destruct (fs !! (data_dir +:+ "/kenpom_player_stats_latest.csv"));
      [| reflexivity].
    destruct H as [H | [H | [H | H]]]; discriminate H.
  - intros self' H.
    destruct (fs !! (data_dir +:+ "/kenpom_rankings_latest.csv"))
      as [rk |]; [| discriminate H]. cbn [mbind option_bind] in H.
    destruct (fs !! (data_dir +:+ "/kenpom_height_experience_latest.csv"))
      as [pe |]; [| discriminate H]. cbn [mbind option_bind] in H.
    destruct (fs !! (data_dir +:+ "/kenpom_tempo_stats_latest.csv"))
      as [te |]; [| discriminate H]. cbn [mbind option_bind] in H.
    destruct (fs !! (data_dir +:+ "/kenpom_player_stats_latest.csv"))
      as [ps |]; [| discriminate H]. cbn [mbind option_bind] in H.
    destruct (merge_inner rk pe "Team" "_pers") as [d1 |] eqn:H1;
      [| discriminate H].
    cbn [mbind option_bind] in H.
    destruct (merge_inner d1 te "Team" "_tempo") as [d2 |] eqn:H2;
      [| discriminate H].
    cbn [mbind option_bind] in H. cbv zeta in H. injection H as <-.
    cbn [FinalPredictiveModel.player_stats FinalPredictiveModel.weights
         FinalPredictiveModel.data].
    eexists rk, pe, te, ps, _.
    split; [reflexivity |]. split; [reflexivity |].
    split; [reflexivity |]. split; [reflexivity |].
    split; [reflexivity |]. split; [reflexivity |].
    split; [reflexivity |]. split.
    + intros name. rewrite drop_columns_has_team.
      * rewrite (merge_inner_has_team _ _ _ _ name H2).
        rewrite (merge_inner_has_team _ _ _ _ name H1). tauto.
      * intros Hin. apply elem_of_List_filter in Hin as [_ Hin].
        discriminate Hin.
    + assert (Hleft : ∀ c, c ∈ df_columns rk → c ∈ df_columns d2).
      { intros c Hc. apply (merge_inner_columns_left _ _ _ _ _ _ H2).
        by apply (merge_inner_columns_left _ _ _ _ _ _ H1). }
      unfold drop_columns. cbn [df_columns df_rows]. split_and!.
      * intros c Hc Hne Hin. apply elem_of_List_filter in Hin as [Hin Hkeep].
        apply negb_true_iff, bool_decide_eq_false in Hkeep.
        apply Hkeep. apply elem_of_List_filter. split; [exact Hin |].
        rewrite Hc. simpl. by apply negb_true_iff, bool_decide_eq_false.
      * intros c Hc Hno. apply elem_of_List_filter.
        split; [by apply Hleft |].
        apply negb_true_iff, bool_decide_eq_false. intros Hin.
        apply elem_of_List_filter in Hin as [_ Hin].
        rewrite Hno in Hin. discriminate Hin.
      * intros Hc. apply elem_of_List_filter.
        split; [by apply Hleft |].
        apply negb_true_iff, bool_decide_eq_false. intros Hin.
        apply elem_of_List_filter in Hin as [_ Hin].
        apply andb_true_iff in Hin as [_ Hin].
        apply negb_true_iff, bool_decide_eq_false in Hin. by apply Hin.
Qed.

Lemma X20_fpm_load_all_data_witness :
  FinalPredictiveModel.load_all_data FinalPredictiveModel.__init__
    (∅ : files) "data" = None ∧
  ∃ d, FinalPredictiveModel.data Samples.fpm_model = Some d ∧
       "Conference_pers" ∉ df_columns d.
Proof.
  split.
  - apply (proj1 (X20_fpm_load_all_data _ _ _)). left. reflexivity.
  - destruct (proj2 (X20_fpm_load_all_data FinalPredictiveModel.__init__
                       Samples.files3 "data") Samples.fpm_model)
      as (rk & pe & te & ps & d & _ & _ & _ & _ & _ & _ & Hd & _ & Hc & _);
      [apply is_some_b_default; vm_compute; reflexivity |].
    exists d. split; [exact Hd |].
    apply Hc; [vm_compute; reflexivity | discriminate].
Defined.

(** ** A better rank never lowers the recent-performance score *)

(** Decide the comparisons of the goal one after the other. *)
Ltac split_thresholds :=
  repeat match goal with
    | |- context [Qle_bool ?a ?b] =>
        let E := fresh "E" in
        destruct (Qle_bool a b) eqn:E;
        [apply Qle_bool_iff in E | apply Qle_bool_gt in E];
        cbv iota
    end.

(** X21.  In the three predictive models the recent-performance score is
    a step function of the team's rank that never increases: of two teams
    of the table, the one with the smaller [AdjEM_Rank] has a score at
    least as high. *)
Theorem X21_recent_performance_monotone t1 t2 r1 r2 k1 k2 s1 s2 :
  num r1 "AdjEM_Rank" = Some k1 → num r2 "AdjEM_Rank" = Some k2 →
  k1 <= k2 →
  (∀ self d,
     FinalPredictiveModelV3.data self = Some d →
     first_where d "Team" t1 = Some r1 →
     first_where d "Team" t2 = Some r2 →
     FinalPredictiveModelV3.calculate_recent_performance self t1
       = Some s1 →
     FinalPredictiveModelV3.calculate_recent_performance self t2
       = Some s2 →
     s2 <= s1) ∧
  (∀ self d,
     FinalPredictiveModel.data self = Some d →
     first_where d "Team" t1 = Some r1 →
     first_where d "Team" t2 = Some r2 →
     FinalPredictiveModel.calculate_recent_performance self t1 = Some s1 →
     FinalPredictiveModel.calculate_recent_performance self t2 = Some s2 →
     s2 <= s1) ∧
  (∀ self rk,
     PredictivePowerRankingModel.rankings self = Some rk →
     first_where rk "Team" t1 = Some r1 →
     first_where rk "Team" t2 = Some r2 →
     PredictivePowerRankingModel.calculate_recent_performance self t1
       = Some s1 →
     PredictivePowerRankingModel.calculate_recent_performance self t2
       = Some s2 →
     s2 <= s1).
Proof.
  intros Hk1 Hk2 Hle. split; [| split].
  - intros self d Hd H1 H2.
    unfold FinalPredictiveModelV3.calculate_recent_performance.
    rewrite Hd. cbn [mbind option_bind].
    rewrite H1, H2. cbn [mbind option_bind].
    rewrite Hk1, Hk2. cbn [mbind option_bind].
    intros [= <-] [= <-]. split_thresholds; lra.
  - intros self d Hd H1 H2.
    unfold FinalPredictiveModel.calculate_recent_performance.
    rewrite Hd. cbn [mbind option_bind].
    rewrite H1, H2. cbn [mbind option_bind].
    rewrite Hk1, Hk2. cbn [mbind option_bind].
    intros [= <-] [= <-]. split_thresholds; lra.
  - intros self rk Hrk H1 H2.
    unfold PredictivePowerRankingModel.calculate_recent_performance.
    rewrite Hrk. cbn [mbind option_bind].
    rewrite H1, H2. cbn [mbind option_bind].
    unfold num in Hk1, Hk2.
    destruct (r1 !! "AdjEM_Rank") as [[q1 | |] |]; try discriminate Hk1.
    destruct (r2 !! "AdjEM_Rank") as [[q2 | |] |]; try discriminate Hk2.
    cbn [mbind option_bind as_num] in *.
    injection Hk1 as ->. injection Hk2 as ->.
    intros [= <-] [= <-]. split_thresholds; lra.
Qed.

Lemma X21_recent_performance_witness :
  ∃ r1 r2 k1 k2 s1 s2 d,
    FinalPredictiveModelV3.data Samples.v3_model = Some d ∧
    first_where d "Team" (CStr "Duke") = Some r1 ∧
    first_where d "Team" (CStr "Yale") = Some r2 ∧
    num r1 "AdjEM_Rank" = Some k1 ∧ num r2 "AdjEM_Rank" = Some k2 ∧
    FinalPredictiveModelV3.calculate_recent_performance
      Samples.v3_model (CStr "Duke") = Some s1 ∧
    FinalPredictiveModelV3.calculate_recent_performance
      Samples.v3_model (CStr "Yale") = Some s2 ∧
    s2 <= s1.
Proof.
  destruct (is_some_b_true
              (d ← FinalPredictiveModelV3.data Samples.v3_model;
               r1 ← first_where d "Team" (CStr "Duke");
               r2 ← first_where d "Team" (CStr "Yale");
               k1 ← num r1 "AdjEM_Rank";
               k2 ← num r2 "AdjEM_Rank";
               s1 ← FinalPredictiveModelV3.calculate_recent_performance
                      Samples.v3_model (CStr "Duke");
               s2 ← FinalPredictiveModelV3.calculate_recent_performance
                      Samples.v3_model (CStr "Yale");
               if Qle_bool k1 k2 then Some (d, r1, r2, k1, k2, s1, s2)
               else None))
    as [[[[[[[d r1] r2] k1] k2] s1] s2] E]; [vm_compute; reflexivity |].
  bind_inv E d' Hd. bind_inv E r1' Hr1. bind_inv E r2' Hr2.
  bind_inv E k1' Hk1. bind_inv E k2' Hk2. bind_inv E s1' Hs1.
  bind_inv E s2' Hs2.
  destruct (Qle_bool k1' k2') eqn:Hle; [| discriminate E].
  injection E as -> -> -> -> -> -> ->.
  apply Qle_bool_iff in Hle.
  exists r1, r2, k1, k2, s1, s2, d.
  split; [exact Hd |]. split; [exact Hr1 |]. split; [exact Hr2 |].
  split; [exact Hk1 |]. split; [exact Hk2 |].
  split; [exact Hs1 |]. split; [exact Hs2 |].
  exact (proj1 (X21_recent_performance_monotone
                  (CStr "Duke") (CStr "Yale") r1 r2 k1 k2 s1 s2
                  Hk1 Hk2 Hle)
           Samples.v3_model d Hd Hr1 Hr2 Hs1 Hs2).
Defined.

(** ** Saving the SWISH rankings *)




